(** * Raw mouse input demos: a shallow embedding of [winapi.c] and [x11.c]

    Both programs are one [main] each: some window set-up followed by an
    event loop that switches on the kind of the event just received.  The
    embedding keeps the local variables of [main] in a record, threads them
    through a small state-and-trace monad, and records every call into the
    platform (and every [printf]) in the trace, in program order.  What the
    platform answers (the message peeked, the payload of a raw-input handle,
    whether the window still exists, the next X event) is the input of the
    model. *)

From Stdlib Require Import ZArith List String Ascii Bool Lia.
From Stdlib Require Import DecimalString SpecFloat.
From Stdlib Require DecimalPos DecimalZ.
Import ListNotations.
Open Scope string_scope.
Open Scope list_scope.
Open Scope Z_scope.

(** ** C data as the two programs use it *)

Module C.

(** A [w]-bit two's-complement integer, as a [Z] wrapped into
    [-2^(w-1) .. 2^(w-1)-1]. *)
Definition wrap_signed (w z : Z) : Z :=
  (z + 2 ^ (w - 1)) mod 2 ^ w - 2 ^ (w - 1).

Definition SHRT_MIN : Z := -32768.
Definition SHRT_MAX : Z := 32767.

(** Assignment of an [int] expression to a [short] lvalue (gcc: reduction
    modulo 2^16). *)
Definition to_short (z : Z) : Z := wrap_signed 16 z.

Definition in_short (z : Z) : bool := (SHRT_MIN <=? z) && (z <=? SHRT_MAX).

(** [printf]'s [%i] conversion. *)
Definition fmt_i (z : Z) : string := NilZero.string_of_int (Z.to_int z).

(** The newline character of a C string literal. *)
Definition nl : string := String (ascii_of_nat 10) EmptyString.

(** A C [double] is an IEEE 754 binary64 number. *)
Definition double : Set := spec_float.
Definition double_add : double -> double -> double := SFadd 53 1024.
Definition double_neg : double -> double := SFopp.

(** The literal [0.0f], converted to [double]. *)
Definition double_zero : double := S754_zero false.

(** Integral part of a double (the fraction is discarded, rounding towards
    zero); nothing for infinities and NaN.  A finite double is
    [(-1)^s * m * 2^e]. *)
Definition double_trunc (d : double) : option Z :=
  match d with
  | S754_zero _ => Some 0
  | S754_finite s m e =>
      let a := Z.shiftl (Z.pos m) e in
      Some (if s then - a else a)
  | S754_infinity _ | S754_nan => None
  end.

(** Conversion of a [double] to [short]: defined when the integral part is
    representable in a [short], undefined behaviour otherwise. *)
Definition double_to_short (d : double) : option Z :=
  match double_trunc d with
  | Some z => if in_short z then Some z else None
  | None => None
  end.

(** [XIMaskIsSet(ptr, event)]:
    [((unsigned char* )ptr)[event >> 3] & (1 << (event & 7))]; reading past
    the end of the mask is undefined. *)
Definition XIMaskIsSet (mask : list Z) (event : Z) : option Z :=
  match nth_error mask (Z.to_nat (Z.shiftr event 3)) with
  | Some b => Some (Z.land b (Z.shiftl 1 (Z.land event 7)))
  | None => None
  end.

End C.

(** ** The monad of [main]: local variables, a trace of calls, undefined behaviour *)

Section Monad.

Variables (St Ev : Type).

(** A computation reads and writes the locals [St], appends the calls it
    makes to the trace, and yields nothing when its behaviour is
    undefined. *)
Definition M (A : Type) : Type := St -> option (A * St * list Ev).

Definition ret {A} (a : A) : M A := fun s => Some (a, s, []).

Definition bind {A B} (c : M A) (k : A -> M B) : M B :=
  fun s =>
    match c s with
    | Some (a, s1, t1) =>
        match k a s1 with
        | Some (b, s2, t2) => Some (b, s2, t1 ++ t2)
        | None => None
        end
    | None => None
    end.

Definition get : M St := fun s => Some (s, s, []).
Definition put (s : St) : M unit := fun _ => Some (tt, s, []).
Definition modify (f : St -> St) : M unit := fun s => Some (tt, f s, []).
Definition call (e : Ev) : M unit := fun s => Some (tt, s, [e]).
Definition undefined {A} : M A := fun _ => None.

(** Reading through an optional value; [None] is undefined behaviour. *)
Definition defined {A} (o : option A) : M A :=
  match o with Some a => ret a | None => undefined end.

End Monad.

Arguments ret {St Ev A} a.
Arguments bind {St Ev A B} c k.
Arguments get {St Ev}.
Arguments put {St Ev} s.
Arguments modify {St Ev} f.
Arguments call {St Ev} e.
Arguments undefined {St Ev A}.
Arguments defined {St Ev A} o.

Declare Scope prog_scope.
Delimit Scope prog_scope with prog.
Notation "x <- c ;; k" := (bind c (fun x => k))
  (at level 61, c at next level, right associativity) : prog_scope.
Notation "c ;; k" := (bind c (fun _ => k))
  (at level 61, right associativity) : prog_scope.

(** How a run of an event loop over finitely many platform answers ends:
    the loop was left, or it is still waiting for its next event. *)
Inductive outcome := Exited | Pending.

Section Loop.

Variables (St Ev In : Type).
Variable cond : St -> bool.
Variable body : In -> M St Ev unit.

(** [while (cond) { body }], the body consuming one platform answer per
    turn; yields how the run ended and the answers not consumed. *)
Fixpoint while_loop (inputs : list In) : M St Ev (outcome * list In) :=
  fun s =>
    if cond s then
      match inputs with
      | [] => ret (Pending, []) s
      | i :: rest => bind (body i) (fun _ => while_loop rest) s
      end
    else ret (Exited, inputs) s.

End Loop.

Arguments while_loop {St Ev In} cond body inputs.

(** The final locals and the trace of a run, when it is defined. *)
Definition locals {St Ev A} (r : option (A * St * list Ev)) : option St :=
  match r with Some (_, s, _) => Some s | None => None end.

Definition trace {St Ev A} (r : option (A * St * list Ev)) : list Ev :=
  match r with Some (_, _, t) => t | None => [] end.

(** ** winapi.c *)

Module Win.

(** [msg.message] values the switch distinguishes (winuser.h). *)
Definition WM_CLOSE : Z := 16.     (* 0x0010 *)
Definition WM_QUIT : Z := 18.      (* 0x0012 *)
Definition WM_INPUT : Z := 255.    (* 0x00FF *)
Definition WM_KEYDOWN : Z := 256.  (* 0x0100 *)

Definition RIM_TYPEMOUSE : Z := 0.
Definition RIM_TYPEKEYBOARD : Z := 1.
Definition RIDEV_REMOVE : Z := 1.

Definition window_width : Z := 300.
Definition window_height : Z := 300.
Definition window_x : Z := 400.
Definition window_y : Z := 400.

(** The fields of [RAWINPUT] that [main] reads: [header.dwType],
    [data.mouse.lLastX] and [data.mouse.lLastY]. *)
Record RAWINPUT := { dwType : Z; lLastX : Z; lLastY : Z }.

Record POINT := { x : Z; y : Z }.

(** A message: its number, and what [GetRawInputData] copies out for the
    handle in [lParam] ([None]: the call fails and leaves the buffer as it
    was). *)
Record MSG := { message : Z; lParam : option RAWINPUT }.

(** The locals of [main] that the loop uses; [raw] is the static buffer. *)
Record state := {
  holdMouse : bool;
  running : bool;
  point : POINT;
  raw : RAWINPUT
}.

Definition set_holdMouse (b : bool) (s : state) : state :=
  {| holdMouse := b; running := running s; point := point s; raw := raw s |}.
Definition set_running (b : bool) (s : state) : state :=
  {| holdMouse := holdMouse s; running := b; point := point s; raw := raw s |}.
Definition set_point (p : POINT) (s : state) : state :=
  {| holdMouse := holdMouse s; running := running s; point := p; raw := raw s |}.
Definition set_raw (r : RAWINPUT) (s : state) : state :=
  {| holdMouse := holdMouse s; running := running s; point := point s; raw := r |}.

(** Calls into the platform, and [printf]. *)
Inductive call_t :=
| RegisterClass
| CreateWindowA (wx wy ww wh : Z)
| ShowWindow
| UpdateWindow
| GetClientRect
| ClientToScreen
| ClipCursor (rect : bool)            (* [true]: [&clipRect]; [false]: [NULL] *)
| SetCursorPos (cx cy : Z)
| RegisterRawInputDevices (dwFlags : Z)
| PeekMessageA
| GetRawInputData
| printf (line : string)
| TranslateMessage
| DispatchMessage
| IsWindow
| DestroyWindow.

Definition prog := M state call_t.

Open Scope prog_scope.

(** Lines 10-42: window creation, cursor confinement, one centring of the
    cursor, raw-input registration. *)
Definition setup : prog unit :=
  call RegisterClass ;;
  call (CreateWindowA window_x window_y window_width window_height) ;;
  call ShowWindow ;;
  call UpdateWindow ;;
  call GetClientRect ;;
  call ClientToScreen ;;
  call ClientToScreen ;;
  call (ClipCursor true) ;;
  call (SetCursorPos (window_x + window_width / 2) (window_y + window_height / 2)) ;;
  call (RegisterRawInputDevices 0).

(** [case WM_INPUT] (lines 59-78). *)
Definition on_input (msg : MSG) : prog unit :=
  s <- get ;;
  if negb (holdMouse s) then ret tt
  else
    call GetRawInputData ;;
    modify (fun s => match lParam msg with
                     | Some r => set_raw r s
                     | None => s
                     end) ;;
    s <- get ;;
    if negb (dwType (raw s) =? RIM_TYPEMOUSE)
       || ((lLastX (raw s) =? 0) && (lLastY (raw s) =? 0))
    then ret tt
    else
      let p := {| x := lLastX (raw s); y := lLastY (raw s) |} in
      put (set_point p s) ;;
      call (printf ("raw input: " ++ C.fmt_i (x p) ++ " " ++ C.fmt_i (y p) ++ C.nl)%string).

(** [case WM_KEYDOWN] (lines 79-89). *)
Definition on_keydown : prog unit :=
  s <- get ;;
  if negb (holdMouse s) then ret tt
  else
    call (RegisterRawInputDevices RIDEV_REMOVE) ;;
    call (ClipCursor false) ;;
    call (printf ("rawinput disabled" ++ C.nl)%string) ;;
    modify (set_holdMouse false).

(** The [switch (msg.message)] of lines 54-92. *)
Definition handle (msg : MSG) : prog unit :=
  if (message msg =? WM_CLOSE) || (message msg =? WM_QUIT) then
    modify (set_running false)
  else if message msg =? WM_INPUT then on_input msg
  else if message msg =? WM_KEYDOWN then on_keydown
  else ret tt.

(** What the platform answers during one turn of the loop: the message
    [PeekMessageA] removes, if any, and the answer of [IsWindow]. *)
Record turn := { peeked : option MSG; window_valid : bool }.

(** The body of [while (running)] (lines 53-97). *)
Definition iteration (i : turn) : prog unit :=
  call PeekMessageA ;;
  match peeked i with
  | Some msg => handle msg ;; call TranslateMessage ;; call DispatchMessage
  | None => ret tt
  end ;;
  call IsWindow ;;
  modify (set_running (window_valid i)).

(** [while (running) { ... }] (lines 52-98). *)
Definition loop (inputs : list turn) : prog (outcome * list turn) :=
  while_loop running iteration inputs.

(** The locals as declared on lines 46-50 and 66; [point] is not
    initialised. *)
Definition init (point0 : POINT) : state :=
  {| holdMouse := true; running := true; point := point0;
     raw := {| dwType := 0; lLastX := 0; lLastY := 0 |} |}.

Definition main (inputs : list turn) : prog (outcome * list turn) :=
  setup ;;
  r <- loop inputs ;;
  match fst r with
  | Exited => call DestroyWindow
  | Pending => ret tt
  end ;;
  ret r.

(** The lines written to standard output by a trace. *)
Fixpoint printed (t : list call_t) : list string :=
  match t with
  | [] => []
  | printf line :: t' => line :: printed t'
  | _ :: t' => printed t'
  end.

Close Scope prog_scope.

End Win.

(** ** x11.c *)

Module X11.

(** The XInput2 event type the [GenericEvent] case looks for (XI2.h). *)
Definition XI_RawMotion : Z := 17.

Definition window_width : Z := 200.
Definition window_height : Z := 200.

(** [XPoint]: two [short] fields. *)
Record XPoint := { x : Z; y : Z }.

(** [XIRawEvent]: the valuator mask ([valuators.mask], of
    [valuators.mask_len] bytes) and the [raw_values] array. *)
Record XIRawEvent := { mask : list Z; raw_values : list C.double }.

Definition mask_len (r : XIRawEvent) : Z := Z.of_nat (List.length (mask r)).

(** [XGenericEventCookie]: [evtype], and [data] as [XGetEventData] leaves
    it ([None]: a null pointer). *)
Record XGenericEventCookie := { evtype : Z; data : option XIRawEvent }.

(** [XEvent], a union tagged by [type]: the three kinds of event the switch
    has a case for, with the members it reads, and all the others. *)
Inductive XEvent :=
| MotionNotify (mx my : Z)                    (* [xmotion.x], [xmotion.y] *)
| GenericEvent (xcookie : XGenericEventCookie)
| KeyPress
| OtherEvent (type : Z).

(** The locals of [main] that the loop uses. *)
Record state := {
  rawInput : bool;
  point : XPoint;
  _lastMousePoint : XPoint
}.

Definition set_point (p : XPoint) (s : state) : state :=
  {| rawInput := rawInput s; point := p; _lastMousePoint := _lastMousePoint s |}.

(** Calls into Xlib and XInput2, and [printf]. *)
Inductive call_t :=
| XOpenDisplay
| XCreateSimpleWindow (wx wy ww wh : Z)
| XSelectInput
| XMapWindow
| XGrabPointer
| XWarpPointer (dest_x dest_y : Z)
| XISelectEvents (event_mask : list Z)
| XNextEvent
| XGetEventData
| XFreeEventData
| XUngrabPointer
| printf (line : string)
| XCloseDisplay.

Definition prog := M state call_t.

Open Scope prog_scope.

(** Lines 12-37: the window, the pointer grab, one warp to the centre of
    the window, selection of [XI_RawMotion] (bit 17: byte 2, bit 1). *)
Definition setup : prog unit :=
  call XOpenDisplay ;;
  call (XCreateSimpleWindow 400 400 window_width window_height) ;;
  call XSelectInput ;;
  call XMapWindow ;;
  call XGrabPointer ;;
  call (XWarpPointer (window_width / 2) (window_height / 2)) ;;
  call (XISelectEvents [0; 0; 2]).

(** [case MotionNotify] (lines 49-59). *)
Definition on_motion (mx my : Z) : prog unit :=
  s <- get ;;
  if rawInput s then
    let p := {| x := C.to_short (x (_lastMousePoint s) - mx);
                y := C.to_short (y (_lastMousePoint s) - my) |} in
    put (set_point p s) ;;
    call (printf ("rawinput " ++ C.fmt_i (x p) ++ " " ++ C.fmt_i (y p) ++ C.nl)%string) ;;
    call (XWarpPointer (window_width / 2) (window_height / 2))
  else ret tt.

(** Lines 76-83: one delta, started at [0.0f] and increased by
    [raw_values[i]] when bit [i] of the valuator mask is set. *)
Definition read_delta (raw : XIRawEvent) (i : Z) : prog C.double :=
  b <- defined (C.XIMaskIsSet (mask raw) i) ;;
  if negb (b =? 0) then
    v <- defined (nth_error (raw_values raw) (Z.to_nat i)) ;;
    ret (C.double_add C.double_zero v)
  else ret C.double_zero.

(** [case GenericEvent] (lines 61-93). *)
Definition on_generic (xcookie : XGenericEventCookie) : prog unit :=
  s <- get ;;
  if negb (rawInput s) then call XFreeEventData
  else
    call XGetEventData ;;
    if evtype xcookie =? XI_RawMotion then
      raw <- defined (data xcookie) ;;
      if mask_len raw =? 0 then call XFreeEventData
      else
        deltaX <- read_delta raw 0 ;;
        deltaY <- read_delta raw 1 ;;
        px <- defined (C.double_to_short (C.double_neg deltaX)) ;;
        py <- defined (C.double_to_short (C.double_neg deltaY)) ;;
        let p := {| x := px; y := py |} in
        modify (set_point p) ;;
        call (XWarpPointer (window_width / 2) (window_height / 2)) ;;
        call (printf ("rawinput " ++ C.fmt_i (x p) ++ " " ++ C.fmt_i (y p) ++ C.nl)%string) ;;
        call XFreeEventData
    else call XFreeEventData.

(** [case KeyPress] (lines 94-108). *)
Definition on_keypress : prog unit :=
  s <- get ;;
  if negb (rawInput s) then ret tt
  else
    call (XISelectEvents [0]) ;;
    call XUngrabPointer ;;
    call (printf ("Raw input disabled" ++ C.nl)%string).

(** The [switch (event.type)] of lines 48-110. *)
Definition handle (event : XEvent) : prog unit :=
  match event with
  | MotionNotify mx my => on_motion mx my
  | GenericEvent xcookie => on_generic xcookie
  | KeyPress => on_keypress
  | OtherEvent _ => ret tt
  end.

(** The body of [for (;;)] (lines 46-110). *)
Definition iteration (event : XEvent) : prog unit :=
  call XNextEvent ;;
  handle event.

(** [for (;;) { ... }]: a loop whose condition is always true. *)
Definition loop (events : list XEvent) : prog (outcome * list XEvent) :=
  while_loop (fun _ => true) iteration events.

(** The locals as declared on lines 39-41; [point] and [_lastMousePoint]
    are not initialised. *)
Definition init (point0 last0 : XPoint) : state :=
  {| rawInput := true; point := point0; _lastMousePoint := last0 |}.

Definition main (events : list XEvent) : prog (outcome * list XEvent) :=
  setup ;;
  r <- loop events ;;
  match fst r with
  | Exited => call XCloseDisplay
  | Pending => ret tt
  end ;;
  ret r.

(** The lines written to standard output by a trace. *)
Fixpoint printed (t : list call_t) : list string :=
  match t with
  | [] => []
  | printf line :: t' => line :: printed t'
  | _ :: t' => printed t'
  end.

Close Scope prog_scope.

End X11.

(** ** Vocabulary of the properties *)

Module Spec.

(** A [WM_INPUT] message whose handle yields the payload [r]. *)
Definition raw_msg (r : Win.RAWINPUT) : Win.MSG :=
  {| Win.message := Win.WM_INPUT; Win.lParam := Some r |}.

(** A mouse payload with the given relative motion. *)
Definition mouse (dx dy : Z) : Win.RAWINPUT :=
  {| Win.dwType := Win.RIM_TYPEMOUSE; Win.lLastX := dx; Win.lLastY := dy |}.

Definition key_msg : Win.MSG :=
  {| Win.message := Win.WM_KEYDOWN; Win.lParam := None |}.

Definition quit_msg : Win.MSG :=
  {| Win.message := Win.WM_QUIT; Win.lParam := None |}.

Definition close_msg : Win.MSG :=
  {| Win.message := Win.WM_CLOSE; Win.lParam := None |}.

(** One turn of the Windows loop in which [msg] is peeked and [IsWindow]
    answers [valid]. *)
Definition turn_of (msg : Win.MSG) (valid : bool) : Win.turn :=
  {| Win.peeked := Some msg; Win.window_valid := valid |}.

(** An XInput2 raw-motion event as the X11 loop receives it. *)
Definition raw_motion (raw : X11.XIRawEvent) : X11.XEvent :=
  X11.GenericEvent {| X11.evtype := X11.XI_RawMotion; X11.data := Some raw |}.

(** The lines the two programs write. *)
Definition win_line (p : Win.POINT) : string :=
  ("raw input: " ++ C.fmt_i (Win.x p) ++ " " ++ C.fmt_i (Win.y p) ++ C.nl)%string.

Definition x11_line (p : X11.XPoint) : string :=
  ("rawinput " ++ C.fmt_i (X11.x p) ++ " " ++ C.fmt_i (X11.y p) ++ C.nl)%string.

Definition win_notice : string := ("rawinput disabled" ++ C.nl)%string.
Definition x11_notice : string := ("Raw input disabled" ++ C.nl)%string.

(** The line format the specification gives for a motion sample:
    [<tag>: <dx> <dy>]. *)
Definition tagged_line (tag : string) (dx dy : Z) : string :=
  (tag ++ ": " ++ C.fmt_i dx ++ " " ++ C.fmt_i dy ++ C.nl)%string.

(** What lines 80-83 of x11.c take as the value of valuator [i] of a raw
    event: the entry [i] of [raw_values] when bit [i] of the first mask byte
    is set, zero when it is not.  This is the code's own lookup, by valuator
    number; nothing when the bit is set and the array has no entry [i]. *)
Definition reported (raw : X11.XIRawEvent) (i : nat) : option C.double :=
  match X11.mask raw with
  | [] => None
  | b :: _ =>
      if Z.testbit b (Z.of_nat i) then nth_error (X11.raw_values raw) i
      else Some C.double_zero
  end.

(** The centre of the X11 window, where the pointer is warped to. *)
Definition x11_centre : X11.call_t :=
  X11.XWarpPointer (X11.window_width / 2) (X11.window_height / 2).

(** Number of times the Windows trace writes the disabled notice. *)
Fixpoint win_notices (t : list Win.call_t) : nat :=
  match t with
  | [] => 0
  | Win.printf line :: t' =>
      if String.eqb line win_notice then S (win_notices t') else win_notices t'
  | _ :: t' => win_notices t'
  end.

(** Whether a Windows trace moves the cursor. *)
Fixpoint moves_cursor (t : list Win.call_t) : bool :=
  match t with
  | [] => false
  | Win.SetCursorPos _ _ :: _ => true
  | _ :: t' => moves_cursor t'
  end.

(** The locals of the Windows program agree except, possibly, on the
    static buffer. *)
Definition same_but_raw (s s1 : Win.state) : Prop :=
  Win.holdMouse s1 = Win.holdMouse s /\
  Win.running s1 = Win.running s /\
  Win.point s1 = Win.point s.

(** The ways one pass through the Windows switch can end: where the
    locals go and what is called on the way. *)
Inductive handled (s : Win.state) : Win.state -> list Win.call_t -> Prop :=
| handled_stop :
    handled s (Win.set_running false s) []
| handled_skip :
    handled s s []
| handled_discard s1 :
    Win.holdMouse s = true ->
    same_but_raw s s1 ->
    handled s s1 [Win.GetRawInputData]
| handled_sample s1 p :
    Win.holdMouse s = true ->
    same_but_raw s s1 ->
    handled s (Win.set_point p s1) [Win.GetRawInputData; Win.printf (win_line p)]
| handled_release :
    Win.holdMouse s = true ->
    handled s (Win.set_holdMouse false s)
      [Win.RegisterRawInputDevices Win.RIDEV_REMOVE;
       Win.ClipCursor false;
       Win.printf win_notice].

(** How many more disabled notices the Windows program can still write. *)
Definition credit (s : Win.state) : nat :=
  if Win.holdMouse s then 1%nat else 0%nat.

End Spec.

(** ** Observations on traces, and the XInput2 mask macros *)

Module Obs.

(** How many calls of a trace satisfy [f]. *)
Fixpoint count {A : Type} (f : A -> bool) (t : list A) : nat :=
  match t with
  | [] => 0
  | c :: t' => if f c then S (count f t') else count f t'
  end.

(** The calls by which the Windows program gives the mouse up. *)
Definition is_notice (c : Win.call_t) : bool :=
  match c with
  | Win.printf line => String.eqb line Spec.win_notice
  | _ => false
  end.

Definition is_unclip (c : Win.call_t) : bool :=
  match c with
  | Win.ClipCursor rect => negb rect
  | _ => false
  end.

Definition is_unregister (c : Win.call_t) : bool :=
  match c with
  | Win.RegisterRawInputDevices dwFlags => dwFlags =? Win.RIDEV_REMOVE
  | _ => false
  end.

(** The calls of the message pump itself. *)
Definition is_peek (c : Win.call_t) : bool :=
  match c with Win.PeekMessageA => true | _ => false end.

Definition is_translate (c : Win.call_t) : bool :=
  match c with Win.TranslateMessage => true | _ => false end.

Definition is_dispatch (c : Win.call_t) : bool :=
  match c with Win.DispatchMessage => true | _ => false end.

Definition is_window_poll (c : Win.call_t) : bool :=
  match c with Win.IsWindow => true | _ => false end.

Definition is_pump (c : Win.call_t) : bool :=
  is_peek c || is_translate c || is_dispatch c || is_window_poll c.

Definition is_destroy (c : Win.call_t) : bool :=
  match c with Win.DestroyWindow => true | _ => false end.

(** The turns of a run in which a message was peeked. *)
Definition has_message (i : Win.turn) : bool :=
  match Win.peeked i with Some _ => true | None => false end.

(** X11 calls. *)
Definition is_next (c : X11.call_t) : bool :=
  match c with X11.XNextEvent => true | _ => false end.

Definition is_get_data (c : X11.call_t) : bool :=
  match c with X11.XGetEventData => true | _ => false end.

Definition is_free_data (c : X11.call_t) : bool :=
  match c with X11.XFreeEventData => true | _ => false end.

Definition is_warp (c : X11.call_t) : bool :=
  match c with X11.XWarpPointer _ _ => true | _ => false end.

(** The set-up part of the two traces. *)
Definition win_setup_trace : list Win.call_t :=
  [Win.RegisterClass; Win.CreateWindowA 400 400 300 300; Win.ShowWindow;
   Win.UpdateWindow; Win.GetClientRect; Win.ClientToScreen;
   Win.ClientToScreen; Win.ClipCursor true; Win.SetCursorPos 550 550;
   Win.RegisterRawInputDevices 0].

Definition x11_setup_trace : list X11.call_t :=
  [X11.XOpenDisplay; X11.XCreateSimpleWindow 400 400 200 200;
   X11.XSelectInput; X11.XMapWindow; X11.XGrabPointer;
   X11.XWarpPointer 100 100; X11.XISelectEvents [0; 0; 2]].

(** A Windows turn that delivers the mouse payload [r] with the window
    still there, and a [WM_INPUT] message whose payload cannot be read. *)
Definition sample_turn (r : Win.RAWINPUT) : Win.turn :=
  Spec.turn_of (Spec.raw_msg r) true.

Definition unread_msg : Win.MSG :=
  {| Win.message := Win.WM_INPUT; Win.lParam := None |}.

(** A payload that passes the test of line 70 of winapi.c. *)
Definition accepted (r : Win.RAWINPUT) : Prop :=
  Win.dwType r = Win.RIM_TYPEMOUSE /\ (Win.lLastX r <> 0 \/ Win.lLastY r <> 0).

(** The point a payload is logged as. *)
Definition payload_point (r : Win.RAWINPUT) : Win.POINT :=
  {| Win.x := Win.lLastX r; Win.y := Win.lLastY r |}.

(** The delta lines 53-54 of x11.c store for a pointer position. *)
Definition motion_delta (last : X11.XPoint) (m : Z * Z) : X11.XPoint :=
  {| X11.x := C.to_short (X11.x last - fst m);
     X11.y := C.to_short (X11.y last - snd m) |}.

Definition motion_event (m : Z * Z) : X11.XEvent :=
  X11.MotionNotify (fst m) (snd m).

(** [XIMaskLen(event)] of XI2.h: [(((event) >> 3) + 1)]. *)
Definition XIMaskLen (event : Z) : Z := Z.shiftr event 3 + 1.

(** [XISetMask(ptr, event)] of XI2.h:
    [(((unsigned char* )(ptr))[(event) >> 3] |= (1 << ((event) & 7)))];
    writing past the end of the mask is undefined. *)
Fixpoint set_byte (mask : list Z) (n : nat) (bit : Z) : option (list Z) :=
  match mask, n with
  | [], _ => None
  | b :: rest, O => Some (Z.lor b bit :: rest)
  | b :: rest, S n' =>
      match set_byte rest n' bit with
      | Some rest' => Some (b :: rest')
      | None => None
      end
  end.

Definition XISetMask (mask : list Z) (event : Z) : option (list Z) :=
  set_byte mask (Z.to_nat (Z.shiftr event 3)) (Z.shiftl 1 (Z.land event 7)).

(** Lines 27-28 of x11.c: [unsigned char mask[XIMaskLen(XI_RawMotion)] = { 0 }]
    followed by [XISetMask(mask, XI_RawMotion)]. *)
Definition raw_motion_mask : option (list Z) :=
  XISetMask (repeat 0 (Z.to_nat (XIMaskLen X11.XI_RawMotion))) X11.XI_RawMotion.

(** Whether [XIMaskIsSet] is non-zero. *)
Definition selects (mask : list Z) (event : Z) : bool :=
  match C.XIMaskIsSet mask event with
  | Some b => negb (b =? 0)
  | None => false
  end.

(** A run of the Windows loop, turn by turn: the turns it consumes, the
    trace it leaves and the locals it ends with.  A turn is only taken while
    [running] is true. *)
Inductive win_run : Win.state -> list Win.turn -> list Win.call_t -> Win.state -> Prop :=
| win_run_nil s :
    win_run s [] [] s
| win_run_cons s i s1 t1 consumed t2 s' :
    Win.running s = true ->
    Win.iteration i s = Some (tt, s1, t1) ->
    win_run s1 consumed t2 s' ->
    win_run s (i :: consumed) (t1 ++ t2) s'.

(** The [short] a raw value ends up as on line 85 of x11.c: its negation,
    cut down to the integral part; nothing when the value is not finite or
    the result does not fit a [short]. *)
Definition short_of_negated (v : C.double) : option Z :=
  match C.double_trunc v with
  | Some t => if C.in_short (- t) then Some (- t) else None
  | None => None
  end.

(** The sample a raw event is logged as: the negated values of valuators 0
    and 1 as [Spec.reported] gives them, each as a [short]; nothing when the
    mask is empty, an entry is missing or a value has no [short]. *)
Definition raw_delta (raw : X11.XIRawEvent) : option X11.XPoint :=
  match Spec.reported raw 0, Spec.reported raw 1 with
  | Some vx, Some vy =>
      match short_of_negated vx, short_of_negated vy with
      | Some px, Some py => Some {| X11.x := px; X11.y := py |}
      | _, _ => None
      end
  | _, _ => None
  end.

(** A string in which the character [c] does not occur. *)
Fixpoint lacks (c : ascii) (s : string) : bool :=
  match s with
  | EmptyString => true
  | String a s' => negb (Ascii.eqb a c) && lacks c s'
  end.

End Obs.

(** * Properties *)

(** Unfolds the monad so that a handler applied to a state computes. *)
Ltac run :=
  cbv [bind ret get put modify call defined undefined
       Win.handle Win.on_input Win.on_keydown Win.iteration
       X11.handle X11.on_motion X11.on_generic X11.on_keypress X11.iteration
       X11.read_delta locals trace].

(** ** The loop combinator *)

Section LoopEquations.

Context {St Ev In : Type}.
Variable cond : St -> bool.
Variable body : In -> M St Ev unit.

Lemma while_loop_nil (s : St) :
  while_loop cond body [] s =
    Some (if cond s then (Pending, []) else (Exited, []), s, []).
Proof. simpl. destruct (cond s); reflexivity. Qed.

Lemma while_loop_cons (i : In) (rest : list In) (s : St) :
  while_loop cond body (i :: rest) s =
    if cond s then
      match body i s with
      | Some (_, s1, t1) =>
          match while_loop cond body rest s1 with
          | Some (r, s2, t2) => Some (r, s2, t1 ++ t2)
          | None => None
          end
      | None => None
      end
    else Some ((Exited, i :: rest), s, []).
Proof. reflexivity. Qed.

End LoopEquations.

(** ** winapi.c: the handlers *)

Section WinHandlers.

Variable s : Win.state.

(** Every message is handled: the Windows switch has no undefined case. *)
Lemma win_handle_total (msg : Win.MSG) :
  exists s' t, Win.handle msg s = Some (tt, s', t).
Proof.
  run.
  destruct (_ || _); [ eauto | ].
  destruct (Win.message msg =? Win.WM_INPUT).
  - destruct (Win.holdMouse s); simpl; [ | eauto ].
    destruct (Win.lParam msg); simpl; destruct (_ || _); simpl; eauto.
  - destruct (Win.message msg =? Win.WM_KEYDOWN); [ | eauto ].
    destruct (Win.holdMouse s); simpl; eauto.
Qed.

(** A raw-input message while the mouse is not held: the case breaks at
    once. *)
Lemma win_input_released (msg : Win.MSG) :
  Win.holdMouse s = false ->
  Win.message msg = Win.WM_INPUT ->
  Win.handle msg s = Some (tt, s, []).
Proof.
  intros Hh Hm. unfold Win.handle. rewrite Hm. simpl. run. rewrite Hh. reflexivity.
Qed.

(** An accepted mouse payload: the buffer is filled, [point] receives the
    two fields as they are, and one line is printed. *)
Lemma win_input_accepted (r : Win.RAWINPUT) :
  Win.holdMouse s = true ->
  Win.dwType r = Win.RIM_TYPEMOUSE ->
  Win.lLastX r <> 0 \/ Win.lLastY r <> 0 ->
  Win.handle (Spec.raw_msg r) s =
    Some (tt,
          Win.set_point {| Win.x := Win.lLastX r; Win.y := Win.lLastY r |}
                        (Win.set_raw r s),
          [Win.GetRawInputData;
           Win.printf (Spec.win_line
                         {| Win.x := Win.lLastX r; Win.y := Win.lLastY r |})]).
Proof.
  intros Hh Ht Hnz. run. simpl. rewrite Hh. simpl. rewrite Ht. simpl.
  assert (Hz : (Win.lLastX r =? 0) && (Win.lLastY r =? 0) = false).
  { apply andb_false_iff.
    destruct Hnz as [H | H]; [ left | right ]; now apply Z.eqb_neq. }
  rewrite Hz. reflexivity.
Qed.

(** A payload that fails the validity test of line 70: only the buffer
    changes. *)
Lemma win_input_discarded (r : Win.RAWINPUT) :
  Win.holdMouse s = true ->
  Win.dwType r <> Win.RIM_TYPEMOUSE \/ (Win.lLastX r = 0 /\ Win.lLastY r = 0) ->
  Win.handle (Spec.raw_msg r) s =
    Some (tt, Win.set_raw r s, [Win.GetRawInputData]).
Proof.
  intros Hh Hd. run. simpl. rewrite Hh. simpl.
  assert (Hz : negb (Win.dwType r =? Win.RIM_TYPEMOUSE)
               || ((Win.lLastX r =? 0) && (Win.lLastY r =? 0)) = true).
  { apply orb_true_iff. destruct Hd as [H | [Hx Hy]].
    - left. apply negb_true_iff. now apply Z.eqb_neq.
    - right. rewrite Hx, Hy. reflexivity. }
  rewrite Hz. reflexivity.
Qed.

(** The first key press releases the mouse. *)
Lemma win_keydown_held (msg : Win.MSG) :
  Win.holdMouse s = true ->
  Win.message msg = Win.WM_KEYDOWN ->
  Win.handle msg s =
    Some (tt, Win.set_holdMouse false s,
          [Win.RegisterRawInputDevices Win.RIDEV_REMOVE;
           Win.ClipCursor false;
           Win.printf Spec.win_notice]).
Proof.
  intros Hh Hm. unfold Win.handle. rewrite Hm. simpl. run. rewrite Hh. reflexivity.
Qed.

(** A key press once the mouse is released does nothing. *)
Lemma win_keydown_released (msg : Win.MSG) :
  Win.holdMouse s = false ->
  Win.message msg = Win.WM_KEYDOWN ->
  Win.handle msg s = Some (tt, s, []).
Proof.
  intros Hh Hm. unfold Win.handle. rewrite Hm. simpl. run. rewrite Hh. reflexivity.
Qed.

End WinHandlers.

(** ** winapi.c: the loop *)

Lemma same_but_raw_refl (s : Win.state) : Spec.same_but_raw s s.
Proof. repeat split. Qed.

Lemma same_but_raw_set_raw (r : Win.RAWINPUT) (s : Win.state) :
  Spec.same_but_raw s (Win.set_raw r s).
Proof. repeat split. Qed.

#[local] Hint Resolve same_but_raw_refl same_but_raw_set_raw : core.
#[local] Hint Constructors Spec.handled : core.

(** One pass through the switch always ends in one of the five ways. *)
Lemma win_handle_handled (msg : Win.MSG) (s : Win.state) :
  exists s' t, Win.handle msg s = Some (tt, s', t) /\ Spec.handled s s' t.
Proof.
  unfold Win.handle.
  destruct (_ || _); [ run; eauto | ].
  destruct (Win.message msg =? Win.WM_INPUT).
  - run. destruct (Win.holdMouse s) eqn:Hh; simpl; [ | eauto ].
    destruct (Win.lParam msg) as [r | ]; simpl;
      destruct (_ || _); simpl; rewrite ?Hh; eauto 6.
  - destruct (Win.message msg =? Win.WM_KEYDOWN); run; [ | eauto ].
    destruct (Win.holdMouse s) eqn:Hh; simpl; eauto.
Qed.

Lemma win_notices_app (t1 t2 : list Win.call_t) :
  Spec.win_notices (t1 ++ t2) = (Spec.win_notices t1 + Spec.win_notices t2)%nat.
Proof.
  induction t1 as [ | c t1 IH ]; [ reflexivity | ].
  destruct c; simpl; auto.
  destruct (String.eqb line Spec.win_notice); simpl; auto.
Qed.

Lemma moves_cursor_app (t1 t2 : list Win.call_t) :
  Spec.moves_cursor (t1 ++ t2) = Spec.moves_cursor t1 || Spec.moves_cursor t2.
Proof.
  induction t1 as [ | c t1 IH ]; [ reflexivity | ].
  destruct c; simpl; auto.
Qed.

(** What one pass through the switch does to the flag, the notice count and
    the cursor. *)
Lemma handled_facts (s s' : Win.state) (t : list Win.call_t) :
  Spec.handled s s' t ->
  (Spec.win_notices t + Spec.credit s' <= Spec.credit s)%nat /\
  Spec.moves_cursor t = false.
Proof.
  unfold Spec.credit.
  intros H; inversion H as [ | | s1 Hh [Hs _] | s1 p Hh [Hs _] | Hh ]; subst; simpl.
  - split; [ lia | reflexivity ].
  - split; [ lia | reflexivity ].
  - rewrite Hs. split; [ lia | reflexivity ].
  - rewrite Hs. split; [ lia | reflexivity ].
  - rewrite Hh. split; [ simpl; lia | reflexivity ].
Qed.

(** One turn of the loop: the switch if a message was peeked, then
    [running] becomes what [IsWindow] answers. *)
Lemma win_iteration_shape (i : Win.turn) (s : Win.state) :
  exists s1 t,
    Win.iteration i s =
      Some (tt, Win.set_running (Win.window_valid i) s1,
            Win.PeekMessageA :: t ++ [Win.IsWindow]) /\
    (Spec.win_notices t + Spec.credit s1 <= Spec.credit s)%nat /\
    Spec.moves_cursor t = false.
Proof.
  unfold Win.iteration. destruct (Win.peeked i) as [msg | ].
  - destruct (win_handle_handled msg s) as (s1 & t & He & Hd).
    exists s1, (t ++ [Win.TranslateMessage; Win.DispatchMessage]).
    apply handled_facts in Hd. destruct Hd as [Hn Hc].
    rewrite win_notices_app, moves_cursor_app, Hc. simpl.
    split; [ | split; [ lia | reflexivity ] ].
    cbv [bind call modify ret]. rewrite He. simpl.
    rewrite <- !app_assoc. reflexivity.
  - exists s, []. simpl. split; [ reflexivity | split; [ lia | reflexivity ] ].
Qed.

(** The loop over any finite list of answers is defined; it writes the
    notice no more often than the flag allows, never moves the cursor, and
    has been left exactly when [running] is false. *)
Lemma win_loop_facts (inputs : list Win.turn) :
  forall s : Win.state,
  exists o rest s' t,
    Win.loop inputs s = Some ((o, rest), s', t) /\
    (Spec.win_notices t + Spec.credit s' <= Spec.credit s)%nat /\
    Spec.moves_cursor t = false /\
    (o = Exited <-> Win.running s' = false).
Proof.
  unfold Win.loop.
  induction inputs as [ | i rest IH ]; intros s; simpl;
    destruct (Win.running s) eqn:Hr.
  - exists Pending, [], s, []. repeat split; try (simpl; lia); try congruence.
  - exists Exited, [], s, []. repeat split; try (simpl; lia); try congruence.
  - destruct (win_iteration_shape i s) as (s1 & t1 & He & Hn & Hc).
    destruct (IH (Win.set_running (Win.window_valid i) s1))
      as (o & rest' & s' & t' & He' & Hn' & Hc' & Hx).
    exists o, rest', s', ((Win.PeekMessageA :: t1 ++ [Win.IsWindow]) ++ t').
    unfold bind. rewrite He, He'.
    split; [ reflexivity | ].
    change (Spec.credit (Win.set_running (Win.window_valid i) s1))
      with (Spec.credit s1) in Hn'.
    rewrite moves_cursor_app, win_notices_app, Hc'.
    change (Spec.win_notices (Win.PeekMessageA :: t1 ++ [Win.IsWindow]))
      with (Spec.win_notices (t1 ++ [Win.IsWindow])).
    change (Spec.moves_cursor (Win.PeekMessageA :: t1 ++ [Win.IsWindow]))
      with (Spec.moves_cursor (t1 ++ [Win.IsWindow])).
    rewrite moves_cursor_app, win_notices_app, Hc. simpl.
    repeat split; try lia; apply Hx.
  - exists Exited, (i :: rest), s, []. repeat split; try (simpl; lia); try congruence.
Qed.

(** As long as [IsWindow] answers true the loop goes on, whatever the
    messages are. *)
Lemma win_loop_runs_while_valid (inputs : list Win.turn) :
  forall s : Win.state,
    Win.running s = true ->
    Forall (fun i => Win.window_valid i = true) inputs ->
    exists s' t,
      Win.loop inputs s = Some ((Pending, []), s', t) /\ Win.running s' = true.
Proof.
  unfold Win.loop.
  induction inputs as [ | i rest IH ]; intros s Hr Hv; simpl; rewrite Hr.
  - exists s, []. split; [ reflexivity | assumption ].
  - inversion Hv as [ | ? ? Hi Hrest ]; subst.
    destruct (win_iteration_shape i s) as (s1 & t1 & He & _).
    destruct (IH (Win.set_running (Win.window_valid i) s1)) as (s' & t' & He' & Hr');
      [ simpl; assumption | assumption | ].
    unfold bind. rewrite He, He'. eauto.
Qed.

(** The loop is left at the first turn in which [IsWindow] answers false. *)
Lemma win_loop_exits_when_invalid (pre post : list Win.turn) (i : Win.turn) :
  forall s : Win.state,
    Win.running s = true ->
    Forall (fun i => Win.window_valid i = true) pre ->
    Win.window_valid i = false ->
    exists s' t,
      Win.loop (pre ++ i :: post) s = Some ((Exited, post), s', t) /\
      Win.running s' = false.
Proof.
  unfold Win.loop.
  induction pre as [ | j pre IH ]; intros s Hr Hv Hi; simpl; rewrite Hr.
  - destruct (win_iteration_shape i s) as (s1 & t1 & He & _).
    unfold bind. rewrite He, Hi.
    destruct post; simpl; eauto.
  - inversion Hv as [ | ? ? Hj Hpre ]; subst.
    destruct (win_iteration_shape j s) as (s1 & t1 & He & _).
    destruct (IH (Win.set_running (Win.window_valid j) s1)) as (s' & t' & He' & Hr');
      [ simpl; assumption | assumption | assumption | ].
    unfold bind. rewrite He, He'. eauto.
Qed.

(** Once the mouse is released it stays released, and nothing more is
    printed about it. *)
Lemma win_released_for_good (inputs : list Win.turn) (s : Win.state) :
  Win.holdMouse s = false ->
  exists r s' t,
    Win.loop inputs s = Some (r, s', t) /\
    Win.holdMouse s' = false /\ Spec.win_notices t = 0%nat.
Proof.
  intros Hh.
  destruct (win_loop_facts inputs s) as (o & rest & s' & t & He & Hn & _).
  exists (o, rest), s', t. split; [ assumption | ].
  unfold Spec.credit in Hn. rewrite Hh in Hn.
  destruct (Win.holdMouse s'); split; try reflexivity; lia.
Qed.

(** ** x11.c: the handlers *)

(** Testing a mask bit the way [XIMaskIsSet] does is reading that bit. *)
Lemma land_shiftl_testbit (b i : Z) :
  0 <= i ->
  (Z.land b (Z.shiftl 1 i) =? 0) = negb (Z.testbit b i).
Proof.
  intros Hi. rewrite Z.shiftl_1_l.
  assert (E : Z.land b (2 ^ i) = if Z.testbit b i then 2 ^ i else 0).
  { apply Z.bits_inj'. intros n Hn.
    rewrite Z.land_spec, Z.pow2_bits_eqb by assumption.
    destruct (Z.eqb_spec i n) as [-> | Hne].
    - rewrite andb_true_r.
      destruct (Z.testbit b n); [ | now rewrite Z.bits_0 ].
      rewrite Z.pow2_bits_eqb by assumption. now rewrite Z.eqb_refl.
    - rewrite andb_false_r.
      destruct (Z.testbit b i); [ | now rewrite Z.bits_0 ].
      rewrite Z.pow2_bits_eqb by assumption.
      symmetry. now apply Z.eqb_neq. }
  rewrite E. destruct (Z.testbit b i); simpl; [ | reflexivity ].
  apply Z.eqb_neq. apply Z.pow_nonzero; lia.
Qed.

(** Adding a double to the literal zero and negating the sum negates its
    integral part. *)
Lemma trunc_neg_add_zero (v : C.double) :
  C.double_trunc (C.double_neg (C.double_add C.double_zero v)) =
  option_map Z.opp (C.double_trunc v).
Proof.
  destruct v as [ [ | ] | [ | ] | | [ | ] m e ]; simpl; try reflexivity.
  now rewrite Z.opp_involutive.
Qed.

Lemma trunc_neg_zero :
  C.double_trunc (C.double_neg C.double_zero) =
  option_map Z.opp (C.double_trunc C.double_zero).
Proof. reflexivity. Qed.

(** The integral parts of 1.5, -20.0 and -2.75. *)
Example double_trunc_examples :
  C.double_trunc (S754_finite false 3 (-1)) = Some 1 /\
  C.double_trunc (S754_finite true 5 2) = Some (-20) /\
  C.double_trunc (S754_finite true 11 (-2)) = Some (-2).
Proof. repeat split. Qed.

(** Lines 76-83 compute, for the first two valuators, a double whose
    negation has the negated integral part of what the device reported. *)
Lemma read_delta_reported (raw : X11.XIRawEvent) (i : nat) (v : C.double)
      (s : X11.state) :
  (i <= 1)%nat ->
  Spec.reported raw i = Some v ->
  exists d,
    X11.read_delta raw (Z.of_nat i) s = Some (d, s, []) /\
    C.double_trunc (C.double_neg d) = option_map Z.opp (C.double_trunc v).
Proof.
  intros Hi Hv. unfold Spec.reported in Hv.
  destruct (X11.mask raw) as [ | b rest ] eqn:Hm; [ discriminate | ].
  assert (Hbit : C.XIMaskIsSet (X11.mask raw) (Z.of_nat i) =
                 Some (Z.land b (Z.shiftl 1 (Z.of_nat i)))).
  { rewrite Hm. destruct i as [ | [ | i ] ]; [ reflexivity | reflexivity | lia ]. }
  unfold X11.read_delta. run. rewrite Hbit.
  rewrite land_shiftl_testbit by lia. rewrite negb_involutive.
  destruct (Z.testbit b (Z.of_nat i)).
  - rewrite Nat2Z.id, Hv. eexists. split; [ reflexivity | ].
    apply trunc_neg_add_zero.
  - injection Hv as <-. eexists. split; [ reflexivity | ].
    apply trunc_neg_zero.
Qed.

Section X11Handlers.

Variable s : X11.state.

(** A pointer-motion event while raw input is on: [point] becomes the
    never-assigned [_lastMousePoint] minus the event's position, the line is
    printed, the pointer is warped to the centre. *)
Lemma x11_motion_on (mx my : Z) :
  X11.rawInput s = true ->
  let p := {| X11.x := C.to_short (X11.x (X11._lastMousePoint s) - mx);
              X11.y := C.to_short (X11.y (X11._lastMousePoint s) - my) |} in
  X11.handle (X11.MotionNotify mx my) s =
    Some (tt, X11.set_point p s,
          [X11.printf (Spec.x11_line p); Spec.x11_centre]).
Proof.
  intros Hr p. run. rewrite Hr. reflexivity.
Qed.

(** The events the switch gates on [rawInput], when it is off. *)
Lemma x11_motion_off (mx my : Z) :
  X11.rawInput s = false ->
  X11.handle (X11.MotionNotify mx my) s = Some (tt, s, []).
Proof.
  intros Hr. run. rewrite Hr. reflexivity.
Qed.

Lemma x11_generic_off (xcookie : X11.XGenericEventCookie) :
  X11.rawInput s = false ->
  X11.handle (X11.GenericEvent xcookie) s = Some (tt, s, [X11.XFreeEventData]).
Proof.
  intros Hr. run. rewrite Hr. reflexivity.
Qed.

Lemma x11_keypress_off :
  X11.rawInput s = false ->
  X11.handle X11.KeyPress s = Some (tt, s, []).
Proof.
  intros Hr. run. rewrite Hr. reflexivity.
Qed.

(** A key press while raw input is on: the release calls and the notice;
    no local is assigned. *)
Lemma x11_keypress_on :
  X11.rawInput s = true ->
  X11.handle X11.KeyPress s =
    Some (tt, s,
          [X11.XISelectEvents [0]; X11.XUngrabPointer;
           X11.printf Spec.x11_notice]).
Proof.
  intros Hr. run. rewrite Hr. reflexivity.
Qed.


End X11Handlers.

(** ** x11.c: the loop *)

(** Reading a delta touches neither the locals nor the platform. *)
Lemma read_delta_pure (raw : X11.XIRawEvent) (i : Z) (s s1 : X11.state)
      (d : C.double) (t : list X11.call_t) :
  X11.read_delta raw i s = Some (d, s1, t) -> s1 = s /\ t = [].
Proof.
  unfold X11.read_delta. run.
  destruct (C.XIMaskIsSet (X11.mask raw) i) as [ b | ]; simpl; [ | discriminate ].
  destruct (negb (b =? 0)); simpl.
  - destruct (nth_error (X11.raw_values raw) (Z.to_nat i)); simpl;
      [ | discriminate ].
    intros [= _ <- <-]. split; reflexivity.
  - intros [= _ <- <-]. split; reflexivity.
Qed.

(** The ways the [GenericEvent] case can end while raw input is on: with the
    cookie fetched and freed only, or with a sample in between, the warp
    first and the line second. *)
Lemma x11_generic_shape (xcookie : X11.XGenericEventCookie)
      (s s' : X11.state) (t : list X11.call_t) :
  X11.rawInput s = true ->
  X11.handle (X11.GenericEvent xcookie) s = Some (tt, s', t) ->
  (s' = s /\ t = [X11.XGetEventData; X11.XFreeEventData]) \/
  (exists p, s' = X11.set_point p s /\
             t = [X11.XGetEventData; Spec.x11_centre;
                  X11.printf (Spec.x11_line p); X11.XFreeEventData]).
Proof.
  intros Hr. unfold X11.handle, X11.on_generic.
  cbv [bind get call defined ret modify undefined]. rewrite Hr. simpl.
  destruct (X11.evtype xcookie =? X11.XI_RawMotion);
    [ | intros [= <- <-]; left; split; reflexivity ].
  destruct (X11.data xcookie) as [ raw | ]; [ | discriminate ].
  destruct (X11.mask_len raw =? 0);
    [ intros [= <- <-]; left; split; reflexivity | ].
  destruct (X11.read_delta raw 0 s) as [ [ [dx s1] t1 ] | ] eqn:E1;
    [ | discriminate ].
  apply read_delta_pure in E1. destruct E1 as [-> ->].
  destruct (X11.read_delta raw 1 s) as [ [ [dy s2] t2 ] | ] eqn:E2;
    [ | discriminate ].
  apply read_delta_pure in E2. destruct E2 as [-> ->].
  destruct (C.double_to_short (C.double_neg dx)) as [ px | ]; [ | discriminate ].
  destruct (C.double_to_short (C.double_neg dy)) as [ py | ]; [ | discriminate ].
  simpl. intros [= <- <-]. right.
  exists {| X11.x := px; X11.y := py |}. split; reflexivity.
Qed.

(** No case of the switch assigns [rawInput] or [_lastMousePoint]. *)
Lemma x11_handle_keeps (event : X11.XEvent) (s s' : X11.state)
      (t : list X11.call_t) :
  X11.handle event s = Some (tt, s', t) ->
  X11.rawInput s' = X11.rawInput s /\
  X11._lastMousePoint s' = X11._lastMousePoint s.
Proof.
  destruct (X11.rawInput s) eqn:Hr; destruct event as [ mx my | xcookie | | ty ].
  - rewrite x11_motion_on by assumption. intros [= <- _]. now split.
  - intros H. apply x11_generic_shape in H; [ | assumption ].
    destruct H as [ [-> _] | (p & -> & _) ]; now split.
  - rewrite x11_keypress_on by assumption. intros [= <- _]. now split.
  - intros [= <- _]. now split.
  - rewrite x11_motion_off by assumption. intros [= <- _]. now split.
  - rewrite x11_generic_off by assumption. intros [= <- _]. now split.
  - rewrite x11_keypress_off by assumption. intros [= <- _]. now split.
  - intros [= <- _]. now split.
Qed.

Lemma x11_iteration_eq (event : X11.XEvent) (s : X11.state) :
  X11.iteration event s =
    match X11.handle event s with
    | Some (u, s1, t1) => Some (u, s1, X11.XNextEvent :: t1)
    | None => None
    end.
Proof. reflexivity. Qed.

(** Over any events, as long as its behaviour is defined, the X11 loop is
    never left, consumes every event, and ends with [rawInput] and
    [_lastMousePoint] as they were at the start. *)
Lemma x11_loop_facts (events : list X11.XEvent) :
  forall (s s' : X11.state) (o : outcome) (rest : list X11.XEvent)
         (t : list X11.call_t),
    X11.loop events s = Some ((o, rest), s', t) ->
    o = Pending /\ rest = [] /\
    X11.rawInput s' = X11.rawInput s /\
    X11._lastMousePoint s' = X11._lastMousePoint s /\
    ~ In X11.XCloseDisplay t.
Proof.
  unfold X11.loop.
  induction events as [ | event events IH ]; intros s s' o rest t.
  - rewrite while_loop_nil. intros [= <- <- <- <-]. repeat split; auto.
  - rewrite while_loop_cons, x11_iteration_eq.
    destruct (X11.handle event s) as [ [ [ [] s1 ] t1 ] | ] eqn:He; [ | discriminate ].
    destruct (while_loop (fun _ => true) X11.iteration events s1)
      as [ [ [ [o2 rest2] s2 ] t2 ] | ] eqn:Hl; [ | discriminate ].
    intros [= <- <- <- <-].
    apply IH in Hl. destruct Hl as (-> & -> & Hr & Hp & Hc).
    pose proof (x11_handle_keeps _ _ _ _ He) as [Hr1 Hp1].
    repeat split; try congruence.
    intros [ Hin | Hin ]; [ discriminate | ].
    apply in_app_or in Hin. destruct Hin as [ Hin | Hin ]; [ | auto ].
    clear - He Hin.
    destruct (X11.rawInput s) eqn:Hr; destruct event as [ mx my | xcookie | | ty ].
    + rewrite x11_motion_on in He by assumption. injection He as _ <-.
      simpl in Hin. intuition discriminate.
    + apply x11_generic_shape in He; [ | assumption ].
      destruct He as [ [_ ->] | (p & _ & ->) ]; simpl in Hin; intuition discriminate.
    + rewrite x11_keypress_on in He by assumption. injection He as _ <-.
      simpl in Hin. intuition discriminate.
    + injection He as _ <-. destruct Hin.
    + rewrite x11_motion_off in He by assumption. injection He as _ <-.
      destruct Hin.
    + rewrite x11_generic_off in He by assumption. injection He as _ <-.
      simpl in Hin. intuition discriminate.
    + rewrite x11_keypress_off in He by assumption. injection He as _ <-.
      destruct Hin.
    + injection He as _ <-. destruct Hin.
Qed.

(** * The claims *)

(** ** Gating (C2) *)

(** C2: gating.  While the capture flag is false, a motion event changes
    no local of the program and prints nothing: the Windows [WM_INPUT] case
    and the X11 [MotionNotify] case return with the locals as they were and
    an empty trace; the X11 [GenericEvent] case (which is where
    [XI_RawMotion] arrives) returns with the locals as they were after its
    one call, [XFreeEventData]. *)
Theorem gating_when_released
        (ws : Win.state) (msg : Win.MSG)
        (xs : X11.state) (mx my : Z) (xcookie : X11.XGenericEventCookie) :
  Win.holdMouse ws = false ->
  Win.message msg = Win.WM_INPUT ->
  X11.rawInput xs = false ->
  Win.handle msg ws = Some (tt, ws, []) /\
  X11.handle (X11.MotionNotify mx my) xs = Some (tt, xs, []) /\
  X11.handle (X11.GenericEvent xcookie) xs = Some (tt, xs, [X11.XFreeEventData]) /\
  X11.printed (trace (X11.handle (X11.GenericEvent xcookie) xs)) = [].
Proof.
  intros Hh Hm Hr.
  split; [ now apply win_input_released | ].
  split; [ now apply x11_motion_off | ].
  rewrite x11_generic_off by assumption.
  split; reflexivity.
Qed.

Lemma gating_when_released_witness :
  let ws := Win.set_holdMouse false (Win.init {| Win.x := 0; Win.y := 0 |}) in
  let msg := Spec.raw_msg (Spec.mouse 7 (-3)) in
  let xs := {| X11.rawInput := false;
               X11.point := {| X11.x := 0; X11.y := 0 |};
               X11._lastMousePoint := {| X11.x := 10; X11.y := 10 |} |} in
  let xcookie := {| X11.evtype := X11.XI_RawMotion;
                    X11.data := Some {| X11.mask := [3];
                                        X11.raw_values := [S754_finite false 3 (-1);
                                                           S754_finite true 5 2] |} |} in
  (Win.holdMouse ws = false /\ Win.message msg = Win.WM_INPUT /\
   X11.rawInput xs = false) /\
  (Win.handle msg ws = Some (tt, ws, []) /\
   X11.handle (X11.MotionNotify 15 12) xs = Some (tt, xs, []) /\
   X11.handle (X11.GenericEvent xcookie) xs = Some (tt, xs, [X11.XFreeEventData]) /\
   X11.printed (trace (X11.handle (X11.GenericEvent xcookie) xs)) = []).
Proof.
  split.
  - repeat split; reflexivity.
  - apply gating_when_released; reflexivity.
Defined.

(** On Windows the rest of the turn still runs after the gated case:
    the message is translated and dispatched, and [running] takes the answer
    of [IsWindow]; nothing is printed and the other locals stay. *)
Lemma win_gated_turn (s : Win.state) (msg : Win.MSG) (valid : bool) :
  Win.holdMouse s = false ->
  Win.message msg = Win.WM_INPUT ->
  Win.iteration (Spec.turn_of msg valid) s =
    Some (tt, Win.set_running valid s,
          [Win.PeekMessageA; Win.TranslateMessage; Win.DispatchMessage;
           Win.IsWindow]).
Proof.
  intros Hh Hm. unfold Win.iteration, Spec.turn_of. simpl.
  cbv [bind call modify]. rewrite win_input_released by assumption.
  reflexivity.
Qed.

(** ** Windows deltas (C4, C10) *)

(** C4: Windows delta pass-through.  For a mouse payload that passes the
    validity test while the mouse is held, [point] receives exactly
    [(lLastX, lLastY)] and the one line printed is [raw input: ] followed by
    these two numbers, neither of them negated. *)
Theorem win_delta_pass_through (s : Win.state) (r : Win.RAWINPUT) :
  Win.holdMouse s = true ->
  Win.dwType r = Win.RIM_TYPEMOUSE ->
  Win.lLastX r <> 0 \/ Win.lLastY r <> 0 ->
  option_map Win.point (locals (Win.handle (Spec.raw_msg r) s)) =
    Some {| Win.x := Win.lLastX r; Win.y := Win.lLastY r |} /\
  Win.printed (trace (Win.handle (Spec.raw_msg r) s)) =
    [("raw input: " ++ C.fmt_i (Win.lLastX r) ++ " " ++ C.fmt_i (Win.lLastY r)
                    ++ C.nl)%string].
Proof.
  intros Hh Ht Hnz.
  rewrite win_input_accepted by assumption.
  split; reflexivity.
Qed.

Lemma win_delta_pass_through_witness :
  let s := Win.init {| Win.x := 0; Win.y := 0 |} in
  let r := Spec.mouse 7 (-3) in
  (Win.holdMouse s = true /\ Win.dwType r = Win.RIM_TYPEMOUSE /\
   (Win.lLastX r <> 0 \/ Win.lLastY r <> 0)) /\
  (option_map Win.point (locals (Win.handle (Spec.raw_msg r) s)) =
     Some {| Win.x := 7; Win.y := -3 |} /\
   Win.printed (trace (Win.handle (Spec.raw_msg r) s)) =
     [("raw input: 7 -3" ++ C.nl)%string]).
Proof.
  assert (Hnz : Win.lLastX (Spec.mouse 7 (-3)) <> 0 \/
                Win.lLastY (Spec.mouse 7 (-3)) <> 0)
    by (left; discriminate).
  split.
  - split; [ reflexivity | split; [ reflexivity | exact Hnz ] ].
  - apply (win_delta_pass_through (Win.init {| Win.x := 0; Win.y := 0 |})
                                  (Spec.mouse 7 (-3)));
      [ reflexivity | reflexivity | exact Hnz ].
Defined.

(** C10: the Windows zero-motion filter is conjunctive.  While the mouse
    is held, a [WM_INPUT] payload is discarded (the buffer is filled and
    nothing else happens) if and only if its device type is not mouse or
    both [lLastX] and [lLastY] are zero; a mouse payload [(0,5)], with one
    zero component, is printed. *)
Theorem win_filter_conjunctive (s : Win.state) (r : Win.RAWINPUT) :
  Win.holdMouse s = true ->
  (Win.handle (Spec.raw_msg r) s =
     Some (tt, Win.set_raw r s, [Win.GetRawInputData])
   <->
   Win.dwType r <> Win.RIM_TYPEMOUSE \/ (Win.lLastX r = 0 /\ Win.lLastY r = 0)) /\
  Win.printed (trace (Win.handle (Spec.raw_msg (Spec.mouse 0 5)) s)) =
    [("raw input: 0 5" ++ C.nl)%string].
Proof.
  intros Hh. split.
  - split.
    + intros He.
      destruct (Z.eq_dec (Win.dwType r) Win.RIM_TYPEMOUSE) as [Ht | Ht];
        [ | now left ].
      destruct (Z.eq_dec (Win.lLastX r) 0) as [Hx | Hx];
        [ destruct (Z.eq_dec (Win.lLastY r) 0) as [Hy | Hy] | ].
      * right. now split.
      * rewrite win_input_accepted in He by auto. discriminate.
      * rewrite win_input_accepted in He by auto. discriminate.
    + now apply win_input_discarded.
  - rewrite win_input_accepted; [ reflexivity | assumption | reflexivity | ].
    right. discriminate.
Qed.

(** A keyboard payload is discarded whatever its motion fields hold. *)
Example win_keyboard_payload_discarded :
  Win.handle
    (Spec.raw_msg {| Win.dwType := Win.RIM_TYPEKEYBOARD;
                     Win.lLastX := 7; Win.lLastY := -3 |})
    (Win.init {| Win.x := 0; Win.y := 0 |}) =
  Some (tt,
        Win.set_raw {| Win.dwType := Win.RIM_TYPEKEYBOARD;
                       Win.lLastX := 7; Win.lLastY := -3 |}
                    (Win.init {| Win.x := 0; Win.y := 0 |}),
        [Win.GetRawInputData]).
Proof. reflexivity. Qed.

Lemma win_filter_conjunctive_witness :
  let s := Win.init {| Win.x := 0; Win.y := 0 |} in
  let r := Spec.mouse 0 5 in
  Win.holdMouse s = true /\
  ((Win.handle (Spec.raw_msg r) s =
      Some (tt, Win.set_raw r s, [Win.GetRawInputData])
    <->
    Win.dwType r <> Win.RIM_TYPEMOUSE \/ (Win.lLastX r = 0 /\ Win.lLastY r = 0)) /\
   Win.printed (trace (Win.handle (Spec.raw_msg (Spec.mouse 0 5)) s)) =
     [("raw input: 0 5" ++ C.nl)%string]).
Proof.
  split.
  - reflexivity.
  - apply (win_filter_conjunctive (Win.init {| Win.x := 0; Win.y := 0 |})
                                  (Spec.mouse 0 5)).
    reflexivity.
Defined.

(** ** X11 raw motion (C9) *)




(** Both valuators set: [(1.5, -20.0)] is printed as [-1 20]. *)
Example x11_raw_motion_both_valuators :
  X11.printed
    (trace (X11.handle
              (Spec.raw_motion {| X11.mask := [3];
                                  X11.raw_values := [S754_finite false 3 (-1);
                                                     S754_finite true 5 2] |})
              (X11.init {| X11.x := 0; X11.y := 0 |} {| X11.x := 0; X11.y := 0 |}))) =
  [("rawinput -1 20" ++ C.nl)%string].
Proof. reflexivity. Qed.

(** A value whose negation does not fit a [short] leaves the conversion of
    line 85 undefined: [-40000.0 = -(625 * 2^6)]. *)
Example x11_raw_motion_out_of_range :
  X11.handle
    (Spec.raw_motion {| X11.mask := [3];
                        X11.raw_values := [S754_finite true 625 6;
                                           S754_zero false] |})
    (X11.init {| X11.x := 0; X11.y := 0 |} {| X11.x := 0; X11.y := 0 |}) = None.
Proof. reflexivity. Qed.

(** ** The capture flag (C1, C5) *)

(** Windows, first half of the one-way transition: a key press while the
    mouse is held clears [holdMouse]. *)
Lemma win_keydown_clears_flag (s : Win.state) (valid : bool) :
  Win.holdMouse s = true ->
  exists s' t,
    Win.iteration (Spec.turn_of Spec.key_msg valid) s = Some (tt, s', t) /\
    Win.holdMouse s' = false.
Proof.
  intros Hh. unfold Win.iteration, Spec.turn_of. simpl.
  cbv [bind call modify]. rewrite win_keydown_held by (assumption || reflexivity).
  simpl. eauto.
Qed.

(** Windows: over a whole run of the loop the notice is written at most
    once. *)
Lemma win_notice_at_most_once (inputs : list Win.turn) (s : Win.state) :
  exists r s' t,
    Win.loop inputs s = Some (r, s', t) /\ (Spec.win_notices t <= 1)%nat.
Proof.
  destruct (win_loop_facts inputs s) as (o & rest & s' & t & He & Hn & _).
  exists (o, rest), s', t. split; [ assumption | ].
  unfold Spec.credit in Hn.
  destruct (Win.holdMouse s), (Win.holdMouse s'); lia.
Qed.

(** X11: whatever the events, [rawInput] ends as it started; started from
    [init] it is true for ever. *)
Lemma x11_rawInput_never_cleared (events : list X11.XEvent)
      (point0 last0 : X11.XPoint) (r : outcome * list X11.XEvent)
      (s' : X11.state) (t : list X11.call_t) :
  X11.loop events (X11.init point0 last0) = Some (r, s', t) ->
  X11.rawInput s' = true.
Proof.
  destruct r as [o rest]. intros H.
  apply x11_loop_facts in H. destruct H as (_ & _ & Hr & _).
  exact Hr.
Qed.

(** C1: one-way transition, at the input where the X11 program departs
    from it: a key press received with [rawInput] true leaves [rawInput]
    true (the [KeyPress] case never assigns it), so the motion event that
    follows is still turned into a sample and printed. *)
Theorem x11_keypress_leaves_rawInput_true :
  X11.loop [X11.KeyPress; X11.MotionNotify 15 12]
           (X11.init {| X11.x := 0; X11.y := 0 |} {| X11.x := 10; X11.y := 10 |}) =
  Some ((Pending, []),
        {| X11.rawInput := true;
           X11.point := {| X11.x := -5; X11.y := -2 |};
           X11._lastMousePoint := {| X11.x := 10; X11.y := 10 |} |},
        [X11.XNextEvent; X11.XISelectEvents [0]; X11.XUngrabPointer;
         X11.printf ("Raw input disabled" ++ C.nl)%string;
         X11.XNextEvent; X11.printf ("rawinput -5 -2" ++ C.nl)%string;
         X11.XWarpPointer 100 100]).
Proof. reflexivity. Qed.

(** C5: idempotent deactivation, at the input where the X11 program
    departs from it: of two key presses in a row the second finds
    [rawInput] still true, so the event selection is reset, the pointer is
    ungrabbed and the notice is written a second time. *)
Theorem x11_second_keypress_repeats_release :
  X11.loop [X11.KeyPress; X11.KeyPress]
           (X11.init {| X11.x := 0; X11.y := 0 |} {| X11.x := 0; X11.y := 0 |}) =
  Some ((Pending, []),
        X11.init {| X11.x := 0; X11.y := 0 |} {| X11.x := 0; X11.y := 0 |},
        [X11.XNextEvent; X11.XISelectEvents [0]; X11.XUngrabPointer;
         X11.printf ("Raw input disabled" ++ C.nl)%string;
         X11.XNextEvent; X11.XISelectEvents [0]; X11.XUngrabPointer;
         X11.printf ("Raw input disabled" ++ C.nl)%string]).
Proof. reflexivity. Qed.

(** ** X11 pointer motion (C3) *)

(** The delta of a pointer-motion sample depends on the start value of
    [_lastMousePoint] and on that sample alone: the events before it leave
    no mark. *)
Lemma x11_delta_ignores_history (events : list X11.XEvent)
      (point0 last0 : X11.XPoint) (r : outcome * list X11.XEvent)
      (s' : X11.state) (t : list X11.call_t) (mx my : Z) :
  X11.loop events (X11.init point0 last0) = Some (r, s', t) ->
  option_map X11.point (locals (X11.handle (X11.MotionNotify mx my) s')) =
    Some {| X11.x := C.to_short (X11.x last0 - mx);
            X11.y := C.to_short (X11.y last0 - my) |}.
Proof.
  destruct r as [o rest]. intros H.
  apply x11_loop_facts in H. destruct H as (_ & _ & Hr & Hp & _).
  simpl in Hr, Hp.
  rewrite x11_motion_on by assumption. simpl. rewrite Hp. reflexivity.
Qed.

(** No start value of [_lastMousePoint] makes the program produce the
    deltas of successive positions: for the samples (10,10), (15,12), (20,20)
    these would be (-5,-2) and then (-5,-8), but the two deltas the program
    stores differ by the distance between the last two samples. *)
Lemma x11_no_start_value_gives_successive_deltas
      (point0 last0 : X11.XPoint) (s2 s3 : X11.state) :
  locals (X11.loop [X11.MotionNotify 10 10; X11.MotionNotify 15 12]
                   (X11.init point0 last0)) = Some s2 ->
  locals (X11.loop [X11.MotionNotify 10 10; X11.MotionNotify 15 12;
                    X11.MotionNotify 20 20]
                   (X11.init point0 last0)) = Some s3 ->
  ~ (X11.point s2 = {| X11.x := -5; X11.y := -2 |} /\
     X11.point s3 = {| X11.x := -5; X11.y := -8 |}).
Proof.
  intros [= <-] [= <-] [H2 H3].
  injection H2 as H2x _. injection H3 as H3x _.
  unfold C.to_short, C.wrap_signed in H2x, H3x.
  change (2 ^ (16 - 1)) with 32768 in H2x, H3x.
  change (2 ^ 16) with 65536 in H2x, H3x.
  revert H2x H3x. generalize (X11.x last0). intros l H2x H3x.
  Z.div_mod_to_equations. lia.
Qed.

(** C3: X11 delta convention, at the input where the program departs from
    it: with [_lastMousePoint] holding (0,0), the samples (10,10) and then
    (15,12) are printed as [-10 -10] and [-15 -12]; the second delta is not
    (-5,-2), because [_lastMousePoint] is never assigned the position of a
    sample. *)
Theorem x11_motion_delta_not_from_previous_sample :
  X11.loop [X11.MotionNotify 10 10; X11.MotionNotify 15 12]
           (X11.init {| X11.x := 0; X11.y := 0 |} {| X11.x := 0; X11.y := 0 |}) =
  Some ((Pending, []),
        {| X11.rawInput := true;
           X11.point := {| X11.x := -15; X11.y := -12 |};
           X11._lastMousePoint := {| X11.x := 0; X11.y := 0 |} |},
        [X11.XNextEvent; X11.printf ("rawinput -10 -10" ++ C.nl)%string;
         X11.XWarpPointer 100 100;
         X11.XNextEvent; X11.printf ("rawinput -15 -12" ++ C.nl)%string;
         X11.XWarpPointer 100 100]).
Proof. reflexivity. Qed.

(** ** The loops (C7) *)

(** The X11 loop is never left: a defined run over any events has consumed
    them all and waits for the next one; [XCloseDisplay], which follows the
    loop, is never called. *)
Lemma x11_main_never_returns (events : list X11.XEvent) (s s' : X11.state)
      (r : outcome * list X11.XEvent) (t : list X11.call_t) :
  X11.main events s = Some (r, s', t) ->
  r = (Pending, []) /\ ~ In X11.XCloseDisplay t.
Proof.
  unfold X11.main. unfold bind at 1.
  change (X11.setup s) with
    (Some (tt, s,
           [X11.XOpenDisplay;
            X11.XCreateSimpleWindow 400 400 X11.window_width X11.window_height;
            X11.XSelectInput; X11.XMapWindow; X11.XGrabPointer;
            Spec.x11_centre; X11.XISelectEvents [0; 0; 2]])).
  unfold bind at 1.
  destruct (X11.loop events s) as [ [ [ [o rest] s1 ] t1 ] | ] eqn:Hl;
    [ | discriminate ].
  apply x11_loop_facts in Hl. destruct Hl as (-> & -> & _ & _ & Hc).
  cbv [bind ret fst]. simpl. intros [= <- <- <-].
  split; [ reflexivity | ].
  rewrite app_nil_r. intros Hin.
  repeat (destruct Hin as [ Hin | Hin ]; [ discriminate | ]).
  auto.
Qed.

(** C7: loop termination, at the input where the Windows program departs
    from it: a [WM_QUIT] message is peeked while the window is still valid.
    The case sets [running] to false, the end of the turn overwrites it with
    the answer of [IsWindow], and the loop goes on to handle the next
    message. *)
Theorem win_quit_message_does_not_end_loop :
  Win.loop [Spec.turn_of Spec.quit_msg true;
            Spec.turn_of (Spec.raw_msg (Spec.mouse 7 (-3))) true]
           (Win.init {| Win.x := 0; Win.y := 0 |}) =
  Some ((Pending, []),
        {| Win.holdMouse := true; Win.running := true;
           Win.point := {| Win.x := 7; Win.y := -3 |};
           Win.raw := Spec.mouse 7 (-3) |},
        [Win.PeekMessageA; Win.TranslateMessage; Win.DispatchMessage;
         Win.IsWindow;
         Win.PeekMessageA; Win.GetRawInputData;
         Win.printf ("raw input: 7 -3" ++ C.nl)%string;
         Win.TranslateMessage; Win.DispatchMessage; Win.IsWindow]).
Proof. reflexivity. Qed.

(** The same for [WM_CLOSE], as far as the loop itself goes: its case only
    sets [running], which line 97 overwrites.  (On the platform the window
    procedure, reached through [DispatchMessage], destroys the window on
    [WM_CLOSE], and it is the next answer of [IsWindow] that ends the
    loop.) *)
Example win_close_message_does_not_end_loop :
  Win.loop [Spec.turn_of Spec.close_msg true; Spec.turn_of Spec.key_msg true]
           (Win.init {| Win.x := 0; Win.y := 0 |}) =
  Some ((Pending, []),
        Win.set_holdMouse false (Win.init {| Win.x := 0; Win.y := 0 |}),
        [Win.PeekMessageA; Win.TranslateMessage; Win.DispatchMessage;
         Win.IsWindow;
         Win.PeekMessageA; Win.RegisterRawInputDevices Win.RIDEV_REMOVE;
         Win.ClipCursor false; Win.printf Spec.win_notice;
         Win.TranslateMessage; Win.DispatchMessage; Win.IsWindow]).
Proof. reflexivity. Qed.

(** The whole Windows program over three turns: a sample, an empty queue,
    and a turn in which the window is gone; [DestroyWindow] follows the
    loop and the answers left over are not consumed. *)
Example win_main_run :
  Win.main [Spec.turn_of (Spec.raw_msg (Spec.mouse 3 4)) true;
            {| Win.peeked := None; Win.window_valid := false |};
            Spec.turn_of Spec.key_msg true]
           (Win.init {| Win.x := 0; Win.y := 0 |}) =
  Some ((Exited, [Spec.turn_of Spec.key_msg true]),
        {| Win.holdMouse := true; Win.running := false;
           Win.point := {| Win.x := 3; Win.y := 4 |};
           Win.raw := Spec.mouse 3 4 |},
        [Win.RegisterClass; Win.CreateWindowA 400 400 300 300; Win.ShowWindow;
         Win.UpdateWindow; Win.GetClientRect; Win.ClientToScreen;
         Win.ClientToScreen; Win.ClipCursor true; Win.SetCursorPos 550 550;
         Win.RegisterRawInputDevices 0;
         Win.PeekMessageA; Win.GetRawInputData;
         Win.printf ("raw input: 3 4" ++ C.nl)%string;
         Win.TranslateMessage; Win.DispatchMessage; Win.IsWindow;
         Win.PeekMessageA; Win.IsWindow;
         Win.DestroyWindow]).
Proof. reflexivity. Qed.

(** ** Output format (C6) *)

(** The Windows line has the format the specification gives, with the tag
    [raw input]. *)
Lemma win_line_is_tagged (p : Win.POINT) :
  Spec.win_line p = Spec.tagged_line "raw input" (Win.x p) (Win.y p).
Proof. reflexivity. Qed.

(** C6 as stated fails on the X11 path: the line written for the sample
    (-5,-2) is not of the form [rawinput: <dx> <dy>] for any numbers, since
    the X11 program puts no colon after its tag. *)
Lemma x11_line_has_no_colon :
  ~ exists dx dy : Z,
      X11.printed
        (trace (X11.handle (X11.MotionNotify 15 12)
                  (X11.init {| X11.x := 0; X11.y := 0 |}
                            {| X11.x := 10; X11.y := 10 |}))) =
      [Spec.tagged_line "rawinput" dx dy].
Proof.
  intros (dx & dy & H). unfold Spec.tagged_line in H. simpl in H.
  discriminate H.
Qed.

(** Where a mask bit is set and the array has no entry for it, the read of
    lines 80-83 is undefined. *)
Lemma read_delta_unreported (raw : X11.XIRawEvent) (i : nat) (s : X11.state) :
  (i <= 1)%nat ->
  X11.mask raw <> [] ->
  Spec.reported raw i = None ->
  X11.read_delta raw (Z.of_nat i) s = None.
Proof.
  intros Hi Hne Hv. unfold Spec.reported in Hv.
  destruct (X11.mask raw) as [ | b rest ] eqn:Hm; [ now destruct Hne | ].
  assert (Hbit : C.XIMaskIsSet (X11.mask raw) (Z.of_nat i) =
                 Some (Z.land b (Z.shiftl 1 (Z.of_nat i)))).
  { rewrite Hm. destruct i as [ | [ | i ] ]; [ reflexivity | reflexivity | lia ]. }
  unfold X11.read_delta. run. rewrite Hbit.
  rewrite land_shiftl_testbit by lia. rewrite negb_involutive.
  destruct (Z.testbit b (Z.of_nat i)); [ | discriminate ].
  rewrite Nat2Z.id, Hv. reflexivity.
Qed.

(** The conversion of line 85, in terms of the value that was read. *)
Lemma double_to_short_negated (d v : C.double) :
  C.double_trunc (C.double_neg d) = option_map Z.opp (C.double_trunc v) ->
  C.double_to_short (C.double_neg d) = Obs.short_of_negated v.
Proof.
  intros H. unfold C.double_to_short, Obs.short_of_negated. rewrite H.
  destruct (C.double_trunc v); reflexivity.
Qed.

(** The raw path in full: with an empty mask the event data is fetched and
    freed; otherwise the case logs the sample [Obs.raw_delta] gives, warp
    first and line second, and is undefined exactly when there is no such
    sample. *)
Lemma x11_raw_motion_exact (raw : X11.XIRawEvent) (s : X11.state) :
  X11.rawInput s = true ->
  X11.handle (Spec.raw_motion raw) s =
    match X11.mask raw with
    | [] => Some (tt, s, [X11.XGetEventData; X11.XFreeEventData])
    | _ :: _ =>
        match Obs.raw_delta raw with
        | Some p =>
            Some (tt, X11.set_point p s,
                  [X11.XGetEventData; Spec.x11_centre;
                   X11.printf (Spec.x11_line p); X11.XFreeEventData])
        | None => None
        end
    end.
Proof.
  intros Hr.
  unfold Spec.raw_motion, X11.handle, X11.on_generic.
  cbv [bind get call defined ret modify]. rewrite Hr. simpl.
  unfold X11.mask_len.
  destruct (X11.mask raw) as [ | b rest ] eqn:Hm; [ reflexivity | ].
  assert (Hne : X11.mask raw <> []) by (rewrite Hm; discriminate).
  change (Z.of_nat (List.length (b :: rest)) =? 0) with false. cbv iota.
  unfold Obs.raw_delta.
  destruct (Spec.reported raw 0) as [ vx | ] eqn:Hvx.
  - destruct (read_delta_reported raw 0 vx s) as (dx & Hdx & Hnx);
      [ lia | assumption | ].
    simpl in Hdx. rewrite Hdx.
    rewrite (double_to_short_negated dx vx Hnx).
    destruct (Spec.reported raw 1) as [ vy | ] eqn:Hvy.
    + destruct (read_delta_reported raw 1 vy s) as (dy & Hdy & Hny);
        [ lia | assumption | ].
      simpl in Hdy. rewrite Hdy.
      rewrite (double_to_short_negated dy vy Hny).
      destruct (Obs.short_of_negated vx) as [ px | ]; [ | reflexivity ].
      destruct (Obs.short_of_negated vy) as [ py | ]; reflexivity.
    + pose proof (read_delta_unreported raw 1 s) as Hdy.
      simpl in Hdy. rewrite Hdy by (lia || assumption). reflexivity.
  - pose proof (read_delta_unreported raw 0 s) as Hdx.
    simpl in Hdx. rewrite Hdx by (lia || assumption). reflexivity.
Qed.

(** C6 (amended): output format.  What one pass through either switch
    writes is settled by the event and the flag.  On Windows, while the
    mouse is held, a [WM_INPUT] message whose payload (the buffer, if the
    payload cannot be read) is of type mouse and not all zero writes the one
    line [raw input: <lLastX> <lLastY>], a [WM_KEYDOWN] message writes the
    one line [rawinput disabled], and nothing else is ever written.  On X11,
    while raw input is on, a [MotionNotify] writes the one line [rawinput
    <dx> <dy>] (no colon) for its delta, a raw-motion event writes that line
    for its sample, a [KeyPress] writes the one line [Raw input disabled],
    and nothing else is ever written; a pass is undefined only on the raw
    path, when the event data is missing or a non-empty mask yields no
    sample.  Every line ends in a newline. *)
Theorem output_format (msg : Win.MSG) (ws : Win.state)
        (event : X11.XEvent) (xs : X11.state) :
  (exists ws' t,
      Win.handle msg ws = Some (tt, ws', t) /\
      Win.printed t =
        if Win.holdMouse ws && (Win.message msg =? Win.WM_INPUT) then
          let r := match Win.lParam msg with
                   | Some r => r
                   | None => Win.raw ws
                   end in
          if (Win.dwType r =? Win.RIM_TYPEMOUSE)
             && negb ((Win.lLastX r =? 0) && (Win.lLastY r =? 0))
          then [("raw input: " ++ C.fmt_i (Win.lLastX r) ++ " "
                               ++ C.fmt_i (Win.lLastY r) ++ C.nl)%string]
          else []
        else if Win.holdMouse ws && (Win.message msg =? Win.WM_KEYDOWN) then
          [("rawinput disabled" ++ C.nl)%string]
        else []) /\
  match X11.handle event xs with
  | Some (_, _, t) =>
      X11.printed t =
        if X11.rawInput xs then
          match event with
          | X11.MotionNotify mx my =>
              [("rawinput "
                  ++ C.fmt_i (C.to_short (X11.x (X11._lastMousePoint xs) - mx))
                  ++ " "
                  ++ C.fmt_i (C.to_short (X11.y (X11._lastMousePoint xs) - my))
                  ++ C.nl)%string]
          | X11.GenericEvent xcookie =>
              if X11.evtype xcookie =? X11.XI_RawMotion then
                match X11.data xcookie with
                | Some raw =>
                    match Obs.raw_delta raw with
                    | Some p =>
                        [("rawinput " ++ C.fmt_i (X11.x p) ++ " "
                                      ++ C.fmt_i (X11.y p) ++ C.nl)%string]
                    | None => []
                    end
                | None => []
                end
              else []
          | X11.KeyPress => [("Raw input disabled" ++ C.nl)%string]
          | X11.OtherEvent _ => []
          end
        else []
  | None =>
      X11.rawInput xs = true /\
      exists xcookie,
        event = X11.GenericEvent xcookie /\
        X11.evtype xcookie = X11.XI_RawMotion /\
        match X11.data xcookie with
        | Some raw => X11.mask raw <> [] /\ Obs.raw_delta raw = None
        | None => True
        end
  end.
Proof.
  split.
  - unfold Win.handle.
    destruct (Z.eqb_spec (Win.message msg) Win.WM_CLOSE) as [Hc | Hc];
      [ rewrite Hc; run; eexists _, _; split; [ reflexivity | ];
        now rewrite !andb_false_r | ].
    destruct (Z.eqb_spec (Win.message msg) Win.WM_QUIT) as [Hq | Hq];
      [ rewrite Hq; run; eexists _, _; split; [ reflexivity | ];
        now rewrite !andb_false_r | ].
    cbv [orb].
    destruct (Z.eqb_spec (Win.message msg) Win.WM_INPUT) as [Hi | Hi].
    + rewrite Hi. run.
      destruct (Win.holdMouse ws); simpl;
        [ | eexists _, _; split; reflexivity ].
      destruct (Win.lParam msg) as [r | ]; simpl;
        destruct (Win.dwType _ =? Win.RIM_TYPEMOUSE); simpl;
        try (eexists _, _; split; reflexivity);
        destruct ((Win.lLastX _ =? 0) && (Win.lLastY _ =? 0)); simpl;
        eexists _, _; split; reflexivity.
    + rewrite andb_false_r.
      destruct (Z.eqb_spec (Win.message msg) Win.WM_KEYDOWN) as [Hk | Hk]; run;
        [ | eexists _, _; split; [ reflexivity | now rewrite andb_false_r ] ].
      destruct (Win.holdMouse ws); simpl; eexists _, _; split; reflexivity.
  - destruct (X11.rawInput xs) eqn:Hr; destruct event as [ mx my | xcookie | | ty ].
    + rewrite x11_motion_on by assumption. reflexivity.
    + destruct xcookie as [ ev [ raw | ] ].
      * destruct (Z.eqb_spec ev X11.XI_RawMotion) as [-> | Hev].
        -- pose proof (x11_raw_motion_exact raw xs Hr) as Hx.
           unfold Spec.raw_motion in Hx. rewrite Hx.
           cbn [X11.evtype X11.data]. rewrite Z.eqb_refl.
           destruct (X11.mask raw) as [ | b rest ] eqn:Hm.
           ++ unfold Obs.raw_delta, Spec.reported. rewrite Hm. reflexivity.
           ++ destruct (Obs.raw_delta raw) as [ p | ] eqn:Hd; [ reflexivity | ].
              split; [ reflexivity | ].
              eexists. split; [ reflexivity | ]. split; [ reflexivity | ].
              cbn [X11.data]. rewrite Hm. split; [ discriminate | exact Hd ].
        -- apply Z.eqb_neq in Hev.
           unfold X11.handle, X11.on_generic.
           cbv [bind get call defined ret modify]. rewrite Hr. simpl.
           rewrite Hev. reflexivity.
      * destruct (Z.eqb_spec ev X11.XI_RawMotion) as [-> | Hev].
        -- unfold X11.handle, X11.on_generic.
           cbv [bind get call defined ret modify undefined]. rewrite Hr. simpl.
           split; [ reflexivity | ].
           eexists. split; [ reflexivity | ]. split; [ reflexivity | exact I ].
        -- apply Z.eqb_neq in Hev.
           unfold X11.handle, X11.on_generic.
           cbv [bind get call defined ret modify]. rewrite Hr. simpl.
           rewrite Hev. reflexivity.
    + rewrite x11_keypress_on by assumption. reflexivity.
    + reflexivity.
    + rewrite x11_motion_off by assumption. reflexivity.
    + rewrite x11_generic_off by assumption. reflexivity.
    + rewrite x11_keypress_off by assumption. reflexivity.
    + reflexivity.
Qed.

(** ** Re-centring (C8) *)

(** C8 as stated fails on the Windows path: in the turn that logs the
    sample (7,-3) no call moves the cursor. *)
Lemma win_sample_logged_without_recentring :
  Win.iteration (Spec.turn_of (Spec.raw_msg (Spec.mouse 7 (-3))) true)
                (Win.init {| Win.x := 0; Win.y := 0 |}) =
    Some (tt,
          {| Win.holdMouse := true; Win.running := true;
             Win.point := {| Win.x := 7; Win.y := -3 |};
             Win.raw := Spec.mouse 7 (-3) |},
          [Win.PeekMessageA; Win.GetRawInputData;
           Win.printf ("raw input: 7 -3" ++ C.nl)%string;
           Win.TranslateMessage; Win.DispatchMessage; Win.IsWindow]) /\
  Spec.moves_cursor
    (trace (Win.iteration (Spec.turn_of (Spec.raw_msg (Spec.mouse 7 (-3))) true)
                          (Win.init {| Win.x := 0; Win.y := 0 |}))) = false.
Proof. split; reflexivity. Qed.

(** C8 (amended): re-centring.  On the X11 path every logged sample comes
    with one warp of the pointer to the centre (100,100) of the window:
    right after the line on the [MotionNotify] path, right before it on the
    [GenericEvent] path.  On the Windows path the cursor is put at the
    centre (550,550) once, during set-up, and no turn of the loop moves
    it. *)
Theorem recentring_per_sample
        (xs : X11.state) (mx my : Z) (xcookie : X11.XGenericEventCookie)
        (ws : Win.state) (inputs : list Win.turn) :
  X11.rawInput xs = true ->
  Spec.x11_centre = X11.XWarpPointer 100 100 /\
  (exists xs',
      X11.handle (X11.MotionNotify mx my) xs =
        Some (tt, xs',
              [X11.printf (Spec.x11_line (X11.point xs')); Spec.x11_centre])) /\
  match X11.handle (X11.GenericEvent xcookie) xs with
  | Some (_, xs', t) =>
      t = [X11.XGetEventData; X11.XFreeEventData] \/
      t = [X11.XGetEventData; Spec.x11_centre;
           X11.printf (Spec.x11_line (X11.point xs')); X11.XFreeEventData]
  | None => True
  end /\
  trace (Win.setup ws) =
    [Win.RegisterClass; Win.CreateWindowA 400 400 300 300; Win.ShowWindow;
     Win.UpdateWindow; Win.GetClientRect; Win.ClientToScreen;
     Win.ClientToScreen; Win.ClipCursor true; Win.SetCursorPos 550 550;
     Win.RegisterRawInputDevices 0] /\
  Spec.moves_cursor (trace (Win.loop inputs ws)) = false.
Proof.
  intros Hr.
  split; [ reflexivity | ].
  split; [ rewrite x11_motion_on by assumption;
           eexists (X11.set_point _ xs); reflexivity | ].
  split.
  { destruct (X11.handle (X11.GenericEvent xcookie) xs)
      as [ [ [ [] xs' ] t ] | ] eqn:He; [ | exact I ].
    apply x11_generic_shape in He; [ | assumption ].
    destruct He as [ [-> ->] | (p & -> & ->) ]; [ now left | now right ]. }
  split; [ reflexivity | ].
  destruct (win_loop_facts inputs ws) as (o & rest & s' & t & He & _ & Hc & _).
  rewrite He. exact Hc.
Qed.

Lemma recentring_per_sample_witness :
  let xs := X11.init {| X11.x := 0; X11.y := 0 |} {| X11.x := 10; X11.y := 10 |} in
  let xcookie := {| X11.evtype := X11.XI_RawMotion;
                    X11.data := Some {| X11.mask := [3];
                                        X11.raw_values := [S754_finite false 3 (-1);
                                                           S754_finite true 5 2] |} |} in
  let ws := Win.init {| Win.x := 0; Win.y := 0 |} in
  let inputs := [Spec.turn_of (Spec.raw_msg (Spec.mouse 7 (-3))) true;
                 Spec.turn_of Spec.key_msg false] in
  X11.rawInput xs = true /\
  (Spec.x11_centre = X11.XWarpPointer 100 100 /\
   (exists xs',
       X11.handle (X11.MotionNotify 15 12) xs =
         Some (tt, xs',
               [X11.printf (Spec.x11_line (X11.point xs')); Spec.x11_centre])) /\
   match X11.handle (X11.GenericEvent xcookie) xs with
   | Some (_, xs', t) =>
       t = [X11.XGetEventData; X11.XFreeEventData] \/
       t = [X11.XGetEventData; Spec.x11_centre;
            X11.printf (Spec.x11_line (X11.point xs')); X11.XFreeEventData]
   | None => True
   end /\
   trace (Win.setup ws) =
     [Win.RegisterClass; Win.CreateWindowA 400 400 300 300; Win.ShowWindow;
      Win.UpdateWindow; Win.GetClientRect; Win.ClientToScreen;
      Win.ClientToScreen; Win.ClipCursor true; Win.SetCursorPos 550 550;
      Win.RegisterRawInputDevices 0] /\
   Spec.moves_cursor (trace (Win.loop inputs ws)) = false).
Proof.
  split.
  - reflexivity.
  - apply recentring_per_sample. reflexivity.
Defined.

(** The re-centred raw path at work: the warp comes before the line. *)
Example x11_raw_motion_warps_before_line :
  trace (X11.handle
           (Spec.raw_motion {| X11.mask := [3];
                               X11.raw_values := [S754_finite false 3 (-1);
                                                  S754_finite true 5 2] |})
           (X11.init {| X11.x := 0; X11.y := 0 |} {| X11.x := 0; X11.y := 0 |})) =
  [X11.XGetEventData; X11.XWarpPointer 100 100;
   X11.printf ("rawinput -1 20" ++ C.nl)%string; X11.XFreeEventData].
Proof. reflexivity. Qed.

(** ** The scenario of the specification, on Windows *)

(** Enabled, motion (3,4), key press, motion (1,1): one sample line, the
    notice, and nothing for the last motion. *)
Example win_scenario :
  Win.printed
    (trace (Win.loop [Spec.turn_of (Spec.raw_msg (Spec.mouse 3 4)) true;
                      Spec.turn_of Spec.key_msg true;
                      Spec.turn_of (Spec.raw_msg (Spec.mouse 1 1)) true]
                     (Win.init {| Win.x := 0; Win.y := 0 |}))) =
  [("raw input: 3 4" ++ C.nl)%string; ("rawinput disabled" ++ C.nl)%string].
Proof. reflexivity. Qed.


(** * Further properties of the two programs *)

(** ** Counting calls *)

Lemma count_app {A : Type} (f : A -> bool) (t1 t2 : list A) :
  Obs.count f (t1 ++ t2) = (Obs.count f t1 + Obs.count f t2)%nat.
Proof.
  induction t1 as [ | c t1 IH ]; [ reflexivity | ].
  simpl. destruct (f c); simpl; rewrite IH; reflexivity.
Qed.

Lemma printed_app (t1 t2 : list Win.call_t) :
  Win.printed (t1 ++ t2) = Win.printed t1 ++ Win.printed t2.
Proof.
  induction t1 as [ | c t1 IH ]; [ reflexivity | ].
  destruct c; simpl; rewrite ?IH; reflexivity.
Qed.

Lemma x11_printed_app (t1 t2 : list X11.call_t) :
  X11.printed (t1 ++ t2) = X11.printed t1 ++ X11.printed t2.
Proof.
  induction t1 as [ | c t1 IH ]; [ reflexivity | ].
  destruct c; simpl; rewrite ?IH; reflexivity.
Qed.

(** ** winapi.c: runs of the loop *)

(** One turn: the switch, if a message was peeked, between the calls of the
    pump. *)
Lemma win_turn_handled (i : Win.turn) (s : Win.state) :
  exists s1 t,
    Spec.handled s s1 t /\
    (Obs.has_message i = false -> s1 = s /\ t = []) /\
    Win.iteration i s =
      Some (tt, Win.set_running (Win.window_valid i) s1,
            Win.PeekMessageA ::
            t ++ (if Obs.has_message i
                  then [Win.TranslateMessage; Win.DispatchMessage] else [])
              ++ [Win.IsWindow]).
Proof.
  unfold Win.iteration, Obs.has_message. destruct (Win.peeked i) as [msg | ].
  - destruct (win_handle_handled msg s) as (s1 & t & He & Hd).
    exists s1, t. split; [ assumption | ]. split; [ discriminate | ].
    cbv [bind call modify ret]. rewrite He. simpl.
    rewrite <- !app_assoc. reflexivity.
  - exists s, []. split; [ constructor | ]. split; [ now split | reflexivity ].
Qed.

(** The loop over any answers of the platform is a run: it consumes a
    prefix of the answers, and it has been left exactly when [running] is
    false at the end; if it has not been left, no answer remains. *)
Lemma win_loop_run (inputs : list Win.turn) :
  forall s : Win.state,
  exists o consumed rest s' t,
    Win.loop inputs s = Some ((o, rest), s', t) /\
    inputs = consumed ++ rest /\
    Obs.win_run s consumed t s' /\
    (o = Exited <-> Win.running s' = false) /\
    (o = Pending -> rest = []).
Proof.
  unfold Win.loop.
  induction inputs as [ | i inputs IH ]; intros s.
  - rewrite while_loop_nil. destruct (Win.running s) eqn:Hr.
    + exists Pending, [], [], s, []. repeat split; try constructor; congruence.
    + exists Exited, [], [], s, []. repeat split; try constructor; congruence.
  - rewrite while_loop_cons. destruct (Win.running s) eqn:Hr.
    + destruct (win_turn_handled i s) as (s1 & t1 & _ & _ & He).
      destruct (IH (Win.set_running (Win.window_valid i) s1))
        as (o & consumed & rest & s' & t & Hl & Hi & Hrun & Hx & Hp).
      rewrite He, Hl.
      exists o, (i :: consumed), rest, s'. eexists.
      split; [ reflexivity | ].
      split; [ simpl; now rewrite Hi | ].
      split; [ | now split ].
      eapply Obs.win_run_cons; eassumption.
    + exists Exited, [], (i :: inputs), s, [].
      repeat split; try constructor; congruence.
Qed.

(** The whole program is the set-up, the loop, and [DestroyWindow] once the
    loop has been left. *)
Lemma win_main_eq (inputs : list Win.turn) (s : Win.state) :
  Win.main inputs s =
    match Win.loop inputs s with
    | Some ((o, rest), s', t) =>
        Some ((o, rest), s',
              Obs.win_setup_trace ++ t ++
              match o with Exited => [Win.DestroyWindow] | Pending => [] end)
    | None => None
    end.
Proof.
  unfold Win.main. unfold bind at 1.
  change (Win.setup s) with (Some (tt, s, Obs.win_setup_trace)).
  unfold bind at 1.
  destruct (Win.loop inputs s) as [ [ [ [o rest] s' ] t ] | ]; [ | reflexivity ].
  destruct o; cbv [bind ret call fst]; rewrite ?app_nil_r; reflexivity.
Qed.

(** What one turn does to the flag and to the release calls: each of the
    three release calls is made as often as the flag goes from true to
    false, and never otherwise. *)
Lemma handled_release_ledger (s s1 : Win.state) (t : list Win.call_t) :
  Spec.handled s s1 t ->
  (Obs.count Obs.is_notice t + Spec.credit s1 = Spec.credit s)%nat /\
  Obs.count Obs.is_unclip t = Obs.count Obs.is_notice t /\
  Obs.count Obs.is_unregister t = Obs.count Obs.is_notice t /\
  Obs.count Obs.is_destroy t = 0%nat.
Proof.
  unfold Spec.credit.
  intros H; inversion H as [ | | s2 Hh [Hs _] | s2 p Hh [Hs _] | Hh ]; subst; simpl.
  - repeat split; reflexivity.
  - repeat split; reflexivity.
  - rewrite Hs. repeat split; reflexivity.
  - rewrite Hs. repeat split; reflexivity.
  - rewrite Hh. repeat split; reflexivity.
Qed.

Lemma win_run_release_ledger (s s' : Win.state) (consumed : list Win.turn)
      (t : list Win.call_t) :
  Obs.win_run s consumed t s' ->
  (Obs.count Obs.is_notice t + Spec.credit s' = Spec.credit s)%nat /\
  Obs.count Obs.is_unclip t = Obs.count Obs.is_notice t /\
  Obs.count Obs.is_unregister t = Obs.count Obs.is_notice t /\
  Obs.count Obs.is_destroy t = 0%nat.
Proof.
  induction 1 as [ s | s i s1 t1 consumed t2 s' Hr He _ IH ].
  - simpl. repeat split; reflexivity.
  - destruct (win_turn_handled i s) as (s0 & t0 & Hd & _ & He').
    rewrite He' in He. injection He as <- <-.
    apply handled_release_ledger in Hd.
    destruct Hd as (Hn & Hu & Hg & Hx). destruct IH as (Hn' & Hu' & Hg' & Hx').
    change (Spec.credit (Win.set_running (Win.window_valid i) s0))
      with (Spec.credit s0) in Hn'.
    rewrite !count_app. simpl. rewrite !count_app.
    destruct (Obs.has_message i); simpl; rewrite ?Hu', ?Hg', ?Hx', ?Hu, ?Hg, ?Hx;
      repeat split; lia.
Qed.

(** The pump calls of a run: one [PeekMessageA] and one [IsWindow] per turn,
    one [TranslateMessage] and one [DispatchMessage] per message. *)
Lemma win_run_pump_calls (s s' : Win.state) (consumed : list Win.turn)
      (t : list Win.call_t) :
  Obs.win_run s consumed t s' ->
  Obs.count Obs.is_peek t = List.length consumed /\
  Obs.count Obs.is_window_poll t = List.length consumed /\
  Obs.count Obs.is_translate t = Obs.count Obs.has_message consumed /\
  Obs.count Obs.is_dispatch t = Obs.count Obs.has_message consumed.
Proof.
  induction 1 as [ s | s i s1 t1 consumed t2 s' Hr He _ IH ].
  - simpl. repeat split; reflexivity.
  - destruct (win_turn_handled i s) as (s0 & t0 & Hd & _ & He').
    rewrite He' in He. injection He as <- <-.
    assert (H0 : Obs.count Obs.is_peek t0 = 0%nat /\
                 Obs.count Obs.is_window_poll t0 = 0%nat /\
                 Obs.count Obs.is_translate t0 = 0%nat /\
                 Obs.count Obs.is_dispatch t0 = 0%nat).
    { inversion Hd; subst; simpl; repeat split; reflexivity. }
    destruct H0 as (Hp & Hw & Ht & Hdp). destruct IH as (Hp' & Hw' & Ht' & Hdp').
    rewrite !count_app. simpl. rewrite !count_app.
    rewrite Hp, Hw, Ht, Hdp, Hp', Hw', Ht', Hdp'.
    destruct (Obs.has_message i); simpl; repeat split; lia.
Qed.

(** A run that starts with the mouse released: nothing is printed, the
    locals other than [running] stay, and only the pump is called. *)
Lemma win_run_released (s s' : Win.state) (consumed : list Win.turn)
      (t : list Win.call_t) :
  Obs.win_run s consumed t s' ->
  Win.holdMouse s = false ->
  Win.printed t = [] /\
  Win.holdMouse s' = false /\ Win.point s' = Win.point s /\
  Win.raw s' = Win.raw s /\
  Obs.count Obs.is_pump t = List.length t.
Proof.
  induction 1 as [ s | s i s1 t1 consumed t2 s' Hr He _ IH ]; intros Hh.
  - repeat split; [ assumption ].
  - destruct (win_turn_handled i s) as (s0 & t0 & Hd & _ & He').
    rewrite He' in He. injection He as <- <-.
    assert (H0 : t0 = [] /\ Win.holdMouse s0 = false /\
                 Win.point s0 = Win.point s /\ Win.raw s0 = Win.raw s).
    { inversion Hd; subst; try congruence; repeat split; assumption. }
    destruct H0 as (-> & Hh0 & Hp0 & Hr0).
    destruct IH as (Hpr & Hh' & Hp' & Hr' & Hc); [ exact Hh0 | ].
    simpl in Hp', Hr'. rewrite printed_app.
    split.
    { destruct (Obs.has_message i); simpl; exact Hpr. }
    split; [ exact Hh' | ]. split; [ congruence | ]. split; [ congruence | ].
    destruct (Obs.has_message i); simpl; rewrite Hc; reflexivity.
Qed.

(** Once the mouse is released the Windows loop is silent: over any further
    turns it prints nothing, leaves [holdMouse] false, [point] and the raw
    buffer as they are, and calls nothing but the message pump. *)
Theorem win_silent_once_released (inputs : list Win.turn) (s : Win.state) :
  Win.holdMouse s = false ->
  exists r s' t,
    Win.loop inputs s = Some (r, s', t) /\
    Win.printed t = [] /\
    Win.holdMouse s' = false /\ Win.point s' = Win.point s /\
    Win.raw s' = Win.raw s /\
    Obs.count Obs.is_pump t = List.length t.
Proof.
  intros Hh.
  destruct (win_loop_run inputs s) as (o & consumed & rest & s' & t & Hl & _ & Hrun & _).
  exists (o, rest), s', t. split; [ exact Hl | ].
  now apply (win_run_released s s' consumed t).
Qed.

Lemma win_silent_once_released_witness :
  let s := Win.set_holdMouse false (Win.init {| Win.x := 3; Win.y := 4 |}) in
  let inputs := [Obs.sample_turn (Spec.mouse 1 1); Spec.turn_of Spec.key_msg true;
                 Spec.turn_of Spec.quit_msg false] in
  Win.holdMouse s = false /\
  exists r s' t,
    Win.loop inputs s = Some (r, s', t) /\
    Win.printed t = [] /\
    Win.holdMouse s' = false /\ Win.point s' = Win.point s /\
    Win.raw s' = Win.raw s /\
    Obs.count Obs.is_pump t = List.length t.
Proof.
  split.
  - reflexivity.
  - apply win_silent_once_released. reflexivity.
Defined.

(** Over a whole run of the Windows program the pointer is released at most
    once, and as one piece: [ClipCursor(NULL)], the removal of the raw-input
    registration and the notice occur equally often, once if the run ends
    with [holdMouse] false and not at all if it ends with [holdMouse]
    true. *)
Theorem win_release_once_and_whole (inputs : list Win.turn) (point0 : Win.POINT) :
  exists r s' t,
    Win.main inputs (Win.init point0) = Some (r, s', t) /\
    Obs.count Obs.is_notice t = (if Win.holdMouse s' then 0 else 1)%nat /\
    Obs.count Obs.is_unclip t = Obs.count Obs.is_notice t /\
    Obs.count Obs.is_unregister t = Obs.count Obs.is_notice t.
Proof.
  destruct (win_loop_run inputs (Win.init point0))
    as (o & consumed & rest & s' & t & Hl & _ & Hrun & _).
  apply win_run_release_ledger in Hrun. destruct Hrun as (Hn & Hu & Hg & _).
  rewrite win_main_eq, Hl. eexists _, s', _. split; [ reflexivity | ].
  rewrite !count_app. simpl Obs.count at 1 3 5 7 9.
  unfold Spec.credit in Hn. simpl in Hn.
  destruct o; simpl; rewrite Hu, Hg; destruct (Win.holdMouse s');
    repeat split; lia.
Qed.

(** Every message the Windows loop removes from the queue is translated and
    dispatched exactly once, whatever its case in the switch does, and every
    turn polls the queue and the window exactly once. *)
Theorem win_pump_calls_per_turn (inputs : list Win.turn) (s : Win.state) :
  exists o consumed rest s' t,
    Win.loop inputs s = Some ((o, rest), s', t) /\
    inputs = consumed ++ rest /\
    Obs.count Obs.is_peek t = List.length consumed /\
    Obs.count Obs.is_window_poll t = List.length consumed /\
    Obs.count Obs.is_translate t = Obs.count Obs.has_message consumed /\
    Obs.count Obs.is_dispatch t = Obs.count Obs.has_message consumed.
Proof.
  destruct (win_loop_run inputs s) as (o & consumed & rest & s' & t & Hl & Hi & Hrun & _).
  exists o, consumed, rest, s', t.
  split; [ exact Hl | ]. split; [ exact Hi | ].
  now apply (win_run_pump_calls s s').
Qed.

(** The Windows program goes on for as long as [IsWindow] answers true:
    whatever the messages are (close and quit messages included), it is
    still in its loop when the answers run out and has not called
    [DestroyWindow]. *)
Theorem win_main_goes_on_while_window_valid
        (inputs : list Win.turn) (point0 : Win.POINT) :
  Forall (fun i => Win.window_valid i = true) inputs ->
  exists s' t,
    Win.main inputs (Win.init point0) = Some ((Pending, []), s', t) /\
    Win.running s' = true /\
    Obs.count Obs.is_destroy t = 0%nat /\
    Obs.count Obs.is_window_poll t = List.length inputs.
Proof.
  intros Hv.
  destruct (win_loop_runs_while_valid inputs (Win.init point0))
    as (s' & t & Hl & Hr); [ reflexivity | exact Hv | ].
  destruct (win_loop_run inputs (Win.init point0))
    as (o & consumed & rest & s2 & t2 & Hl2 & Hi & Hrun & _).
  rewrite Hl in Hl2. injection Hl2 as <- <- <- <-.
  rewrite app_nil_r in Hi. subst consumed.
  pose proof (win_run_release_ledger _ _ _ _ Hrun) as (_ & _ & _ & Hx).
  pose proof (win_run_pump_calls _ _ _ _ Hrun) as (_ & Hw & _).
  rewrite win_main_eq, Hl. exists s', (Obs.win_setup_trace ++ t ++ []).
  split; [ reflexivity | ]. split; [ exact Hr | ].
  rewrite !count_app, Hx, Hw. simpl. split; [ reflexivity | lia ].
Qed.

Lemma win_main_goes_on_while_window_valid_witness :
  let inputs := [Spec.turn_of Spec.close_msg true;
                 {| Win.peeked := None; Win.window_valid := true |};
                 Obs.sample_turn (Spec.mouse 3 4)] in
  Forall (fun i => Win.window_valid i = true) inputs /\
  exists s' t,
    Win.main inputs (Win.init {| Win.x := 0; Win.y := 0 |}) =
      Some ((Pending, []), s', t) /\
    Win.running s' = true /\
    Obs.count Obs.is_destroy t = 0%nat /\
    Obs.count Obs.is_window_poll t = List.length inputs.
Proof.
  assert (Hv : Forall (fun i => Win.window_valid i = true)
                 [Spec.turn_of Spec.close_msg true;
                  {| Win.peeked := None; Win.window_valid := true |};
                  Obs.sample_turn (Spec.mouse 3 4)])
    by (repeat constructor).
  split.
  - exact Hv.
  - apply (win_main_goes_on_while_window_valid _ {| Win.x := 0; Win.y := 0 |} Hv).
Defined.

(** The Windows program ends at the first turn in which [IsWindow] answers
    false: it takes that turn in full, leaves the answers after it
    unconsumed, and [DestroyWindow] is its last call and is called once. *)
Theorem win_main_ends_at_first_invalid_turn
        (pre post : list Win.turn) (i : Win.turn) (point0 : Win.POINT) :
  Forall (fun j => Win.window_valid j = true) pre ->
  Win.window_valid i = false ->
  exists s' t,
    Win.main (pre ++ i :: post) (Win.init point0) =
      Some ((Exited, post), s', t ++ [Win.DestroyWindow]) /\
    Win.running s' = false /\
    Obs.count Obs.is_destroy t = 0%nat /\
    Obs.count Obs.is_window_poll t = S (List.length pre).
Proof.
  intros Hv Hi.
  destruct (win_loop_exits_when_invalid pre post i (Win.init point0))
    as (s' & t & Hl & Hr); [ reflexivity | exact Hv | exact Hi | ].
  destruct (win_loop_run (pre ++ i :: post) (Win.init point0))
    as (o & consumed & rest & s2 & t2 & Hl2 & Hc & Hrun & _).
  rewrite Hl in Hl2. injection Hl2 as <- <- <- <-.
  assert (Hcons : consumed = pre ++ [i]).
  { apply (app_inv_tail post). rewrite <- Hc, <- app_assoc. reflexivity. }
  pose proof (win_run_release_ledger _ _ _ _ Hrun) as (_ & _ & _ & Hx).
  pose proof (win_run_pump_calls _ _ _ _ Hrun) as (_ & Hw & _).
  rewrite win_main_eq, Hl. exists s', (Obs.win_setup_trace ++ t).
  split; [ now rewrite <- app_assoc | ]. split; [ exact Hr | ].
  rewrite !count_app, Hx, Hw, Hcons, length_app. simpl. split; lia.
Qed.

Lemma win_main_ends_at_first_invalid_turn_witness :
  let pre := [Obs.sample_turn (Spec.mouse 3 4)] in
  let i := {| Win.peeked := None; Win.window_valid := false |} in
  let post := [Spec.turn_of Spec.key_msg true] in
  (Forall (fun j => Win.window_valid j = true) pre /\
   Win.window_valid i = false) /\
  exists s' t,
    Win.main (pre ++ i :: post) (Win.init {| Win.x := 0; Win.y := 0 |}) =
      Some ((Exited, post), s', t ++ [Win.DestroyWindow]) /\
    Win.running s' = false /\
    Obs.count Obs.is_destroy t = 0%nat /\
    Obs.count Obs.is_window_poll t = S (List.length pre).
Proof.
  assert (Hv : Forall (fun j => Win.window_valid j = true)
                 [Obs.sample_turn (Spec.mouse 3 4)])
    by (repeat constructor).
  split.
  - split; [ exact Hv | reflexivity ].
  - apply (win_main_ends_at_first_invalid_turn
             [Obs.sample_turn (Spec.mouse 3 4)]
             [Spec.turn_of Spec.key_msg true]
             {| Win.peeked := None; Win.window_valid := false |}
             {| Win.x := 0; Win.y := 0 |} Hv).
    reflexivity.
Defined.

(** ** winapi.c: the switch *)

(** Closes the implications of a frame statement once the case of the
    switch is known: the local either did not change or the message is the
    one named. *)
Ltac frame_case :=
  repeat split; intros; simpl in *;
  solve [ auto
        | congruence
        | exfalso;
          match goal with
          | H : ?a <> ?a |- _ => now apply H
          | H : _ \/ _ |- _ => destruct H as [H | H]; now apply H
          end ].

(** What each case of the Windows switch can touch: only [WM_KEYDOWN]
    changes [holdMouse], and only from true to false; only [WM_INPUT]
    changes [point] or the raw buffer; only [WM_CLOSE] and [WM_QUIT] change
    [running]; and only [WM_INPUT] and [WM_KEYDOWN] print. *)
Theorem win_switch_frame (msg : Win.MSG) (s : Win.state) :
  exists s' t,
    Win.handle msg s = Some (tt, s', t) /\
    (Win.holdMouse s' <> Win.holdMouse s ->
     Win.message msg = Win.WM_KEYDOWN /\ Win.holdMouse s' = false) /\
    (Win.point s' <> Win.point s \/ Win.raw s' <> Win.raw s ->
     Win.message msg = Win.WM_INPUT) /\
    (Win.running s' <> Win.running s ->
     Win.message msg = Win.WM_CLOSE \/ Win.message msg = Win.WM_QUIT) /\
    (Win.printed t <> [] ->
     Win.message msg = Win.WM_INPUT \/ Win.message msg = Win.WM_KEYDOWN).
Proof.
  unfold Win.handle.
  destruct (Z.eqb_spec (Win.message msg) Win.WM_CLOSE) as [Hc | Hc];
    [ run; eexists _, _; split; [ reflexivity | frame_case ] | ].
  destruct (Z.eqb_spec (Win.message msg) Win.WM_QUIT) as [Hq | Hq];
    [ run; eexists _, _; split; [ reflexivity | frame_case ] | ].
  simpl.
  destruct (Z.eqb_spec (Win.message msg) Win.WM_INPUT) as [Hi | Hi].
  - run. destruct (Win.holdMouse s) eqn:Hh; simpl;
      [ destruct (Win.lParam msg) as [r | ]; simpl; destruct (_ || _); simpl | ];
      (eexists _, _; split; [ reflexivity | frame_case ]).
  - destruct (Z.eqb_spec (Win.message msg) Win.WM_KEYDOWN) as [Hk | Hk]; run;
      [ destruct (Win.holdMouse s) eqn:Hh; simpl | ];
      (eexists _, _; split; [ reflexivity | frame_case ]).
Qed.

(** A [WM_INPUT] message whose payload cannot be read is not told apart
    from one that can: the switch acts on what the static buffer holds.  So
    it is handled as if it carried the buffer's contents, and right after an
    accepted sample it logs that sample a second time. *)
Theorem win_unread_payload_replays_buffer (s : Win.state) (r : Win.RAWINPUT) :
  Win.holdMouse s = true ->
  Obs.accepted r ->
  Win.handle Obs.unread_msg s = Win.handle (Spec.raw_msg (Win.raw s)) s /\
  exists s1,
    Win.handle (Spec.raw_msg r) s =
      Some (tt, s1, [Win.GetRawInputData;
                     Win.printf (Spec.win_line (Obs.payload_point r))]) /\
    Win.handle Obs.unread_msg s1 =
      Some (tt, s1, [Win.GetRawInputData;
                     Win.printf (Spec.win_line (Obs.payload_point r))]).
Proof.
  intros Hh [Ht Hnz]. split.
  - destruct s as [h rn p b]. simpl in Hh. subst h.
    unfold Win.handle, Obs.unread_msg, Spec.raw_msg. simpl. run. simpl.
    destruct (_ || _); reflexivity.
  - exists (Win.set_point (Obs.payload_point r) (Win.set_raw r s)).
    split; [ now apply win_input_accepted | ].
    assert (Hz : negb (Win.dwType r =? Win.RIM_TYPEMOUSE)
                 || ((Win.lLastX r =? 0) && (Win.lLastY r =? 0)) = false).
    { rewrite Ht. simpl. apply andb_false_iff.
      destruct Hnz as [H | H]; [ left | right ]; now apply Z.eqb_neq. }
    unfold Win.handle, Obs.unread_msg. simpl. run. simpl.
    rewrite Hh. simpl. rewrite Hz. reflexivity.
Qed.

Lemma win_unread_payload_replays_buffer_witness :
  let s := Win.init {| Win.x := 0; Win.y := 0 |} in
  let r := Spec.mouse 7 (-3) in
  (Win.holdMouse s = true /\ Obs.accepted r) /\
  (Win.handle Obs.unread_msg s = Win.handle (Spec.raw_msg (Win.raw s)) s /\
   exists s1,
     Win.handle (Spec.raw_msg r) s =
       Some (tt, s1, [Win.GetRawInputData;
                      Win.printf (Spec.win_line (Obs.payload_point r))]) /\
     Win.handle Obs.unread_msg s1 =
       Some (tt, s1, [Win.GetRawInputData;
                      Win.printf (Spec.win_line (Obs.payload_point r))])).
Proof.
  assert (Ha : Obs.accepted (Spec.mouse 7 (-3)))
    by (split; [ reflexivity | left; discriminate ]).
  split.
  - split; [ reflexivity | exact Ha ].
  - apply (win_unread_payload_replays_buffer
             (Win.init {| Win.x := 0; Win.y := 0 |}) (Spec.mouse 7 (-3)));
      [ reflexivity | exact Ha ].
Defined.

Lemma last_nonempty_default {A : Type} (l : list A) :
  forall a d d' : A, last (a :: l) d = last (a :: l) d'.
Proof.
  induction l as [ | b l IH ]; intros a d d'; [ reflexivity | ].
  change (last (b :: l) d = last (b :: l) d'). apply IH.
Qed.

(** The turn that logs an accepted payload. *)
Lemma win_sample_turn (r : Win.RAWINPUT) (s : Win.state) :
  Win.holdMouse s = true ->
  Obs.accepted r ->
  Win.iteration (Obs.sample_turn r) s =
    Some (tt,
          Win.set_running true
            (Win.set_point (Obs.payload_point r) (Win.set_raw r s)),
          [Win.PeekMessageA; Win.GetRawInputData;
           Win.printf (Spec.win_line (Obs.payload_point r));
           Win.TranslateMessage; Win.DispatchMessage; Win.IsWindow]).
Proof.
  intros Hh [Ht Hnz].
  unfold Obs.sample_turn, Spec.turn_of, Win.iteration. simpl.
  cbv [bind call modify ret].
  rewrite win_input_accepted by assumption. reflexivity.
Qed.

(** While the mouse is held and the window is there, a stream of accepted
    mouse payloads is logged in full and in order, one line per payload;
    the loop is still running afterwards, the mouse is still held, and
    [point] holds the last payload. *)
Theorem win_samples_logged_in_order (rs : list Win.RAWINPUT) :
  forall s : Win.state,
    Win.holdMouse s = true ->
    Win.running s = true ->
    Forall Obs.accepted rs ->
    exists s' t,
      Win.loop (map Obs.sample_turn rs) s = Some ((Pending, []), s', t) /\
      Win.printed t = map (fun r => Spec.win_line (Obs.payload_point r)) rs /\
      Win.holdMouse s' = true /\ Win.running s' = true /\
      Win.point s' = last (map Obs.payload_point rs) (Win.point s).
Proof.
  unfold Win.loop.
  induction rs as [ | r rs IH ]; intros s Hh Hr Ha.
  - simpl map. rewrite while_loop_nil, Hr. exists s, []. repeat split; assumption.
  - inversion Ha as [ | ? ? Har Hrest ]; subst.
    simpl map. rewrite while_loop_cons, Hr.
    rewrite win_sample_turn by assumption.
    destruct (IH (Win.set_running true
                    (Win.set_point (Obs.payload_point r) (Win.set_raw r s))))
      as (s' & t & Hl & Hp & Hh' & Hr' & Hpt);
      [ exact Hh | reflexivity | exact Hrest | ].
    rewrite Hl. eexists s', _. split; [ reflexivity | ].
    simpl. rewrite Hp. split; [ reflexivity | ].
    split; [ exact Hh' | ]. split; [ exact Hr' | ].
    rewrite Hpt. destruct rs as [ | r0 rs ]; [ reflexivity | ].
    simpl map. rewrite (last_nonempty_default _ _ _ (Win.point s)). reflexivity.
Qed.

Lemma win_samples_logged_in_order_witness :
  let rs := [Spec.mouse 3 4; Spec.mouse 0 5; Spec.mouse (-1) 0] in
  let s := Win.init {| Win.x := 0; Win.y := 0 |} in
  (Win.holdMouse s = true /\ Win.running s = true /\ Forall Obs.accepted rs) /\
  exists s' t,
    Win.loop (map Obs.sample_turn rs) s = Some ((Pending, []), s', t) /\
    Win.printed t = map (fun r => Spec.win_line (Obs.payload_point r)) rs /\
    Win.holdMouse s' = true /\ Win.running s' = true /\
    Win.point s' = last (map Obs.payload_point rs) (Win.point s).
Proof.
  assert (Ha : Forall Obs.accepted
                 [Spec.mouse 3 4; Spec.mouse 0 5; Spec.mouse (-1) 0]).
  { constructor; [ split; [ reflexivity | left; discriminate ] | ].
    constructor; [ split; [ reflexivity | right; discriminate ] | ].
    constructor; [ split; [ reflexivity | left; discriminate ] | constructor ]. }
  split.
  - split; [ reflexivity | split; [ reflexivity | exact Ha ] ].
  - apply (win_samples_logged_in_order
             [Spec.mouse 3 4; Spec.mouse 0 5; Spec.mouse (-1) 0]
             (Win.init {| Win.x := 0; Win.y := 0 |}));
      [ reflexivity | reflexivity | exact Ha ].
Defined.

(** ** x11.c: runs of the loop *)

(** The six ways one pass through the X11 switch can end. *)
Lemma x11_handle_shape (event : X11.XEvent) (s s' : X11.state)
      (t : list X11.call_t) :
  X11.handle event s = Some (tt, s', t) ->
  (s' = s /\ t = []) \/
  (s' = s /\ t = [X11.XFreeEventData]) \/
  (s' = s /\ t = [X11.XGetEventData; X11.XFreeEventData]) \/
  (s' = s /\ t = [X11.XISelectEvents [0]; X11.XUngrabPointer;
                  X11.printf Spec.x11_notice]) \/
  (exists p, s' = X11.set_point p s /\
             t = [X11.printf (Spec.x11_line p); Spec.x11_centre]) \/
  (exists p, s' = X11.set_point p s /\
             t = [X11.XGetEventData; Spec.x11_centre;
                  X11.printf (Spec.x11_line p); X11.XFreeEventData]).
Proof.
  destruct (X11.rawInput s) eqn:Hr; destruct event as [ mx my | xcookie | | ty ].
  - rewrite x11_motion_on by assumption. intros [= <- <-].
    do 4 right. left. eauto.
  - intros H. apply x11_generic_shape in H; [ | assumption ].
    destruct H as [ [-> ->] | (p & -> & ->) ]; [ do 2 right; left; now split | ].
    do 5 right. eauto.
  - rewrite x11_keypress_on by assumption. intros [= <- <-].
    do 3 right. left. now split.
  - intros [= <- <-]. left. now split.
  - rewrite x11_motion_off by assumption. intros [= <- <-]. left. now split.
  - rewrite x11_generic_off by assumption. intros [= <- <-].
    right. left. now split.
  - rewrite x11_keypress_off by assumption. intros [= <- <-]. left. now split.
  - intros [= <- <-]. left. now split.
Qed.

(** The X11 loop waits for an event once per event it is given. *)
Lemma x11_loop_waits (events : list X11.XEvent) :
  forall (s s' : X11.state) (r : outcome * list X11.XEvent)
         (t : list X11.call_t),
    X11.loop events s = Some (r, s', t) ->
    Obs.count Obs.is_next t = List.length events.
Proof.
  unfold X11.loop.
  induction events as [ | event events IH ]; intros s s' r t.
  - rewrite while_loop_nil. intros [= _ _ <-]. reflexivity.
  - rewrite while_loop_cons, x11_iteration_eq.
    destruct (X11.handle event s) as [ [ [ [] s1 ] t1 ] | ] eqn:He; [ | discriminate ].
    destruct (while_loop (fun _ => true) X11.iteration events s1)
      as [ [ [ r2 s2 ] t2 ] | ] eqn:Hl; [ | discriminate ].
    intros [= _ _ <-]. apply IH in Hl.
    change ((X11.XNextEvent :: t1) ++ t2) with (X11.XNextEvent :: t1 ++ t2).
    simpl. rewrite count_app, Hl. f_equal.
    apply x11_handle_shape in He.
    destruct He as [ [_ ->] | [ [_ ->] | [ [_ ->] | [ [_ ->]
                   | [ (p & _ & ->) | (p & _ & ->) ] ] ] ] ]; reflexivity.
Qed.

Lemma x11_main_eq (events : list X11.XEvent) (s : X11.state) :
  X11.main events s =
    match X11.loop events s with
    | Some ((o, rest), s', t) =>
        Some ((o, rest), s',
              Obs.x11_setup_trace ++ t ++
              match o with Exited => [X11.XCloseDisplay] | Pending => [] end)
    | None => None
    end.
Proof.
  unfold X11.main. unfold bind at 1.
  change (X11.setup s) with (Some (tt, s, Obs.x11_setup_trace)).
  unfold bind at 1.
  destruct (X11.loop events s) as [ [ [ [o rest] s' ] t ] | ]; [ | reflexivity ].
  destruct o; cbv [bind ret call fst]; rewrite ?app_nil_r; reflexivity.
Qed.

(** The X11 program never gets past its loop: whenever its run over some
    events is defined, it has taken every one of them, waited for an event
    exactly once per event, is waiting for the next, and has not called
    [XCloseDisplay]. *)
Theorem x11_main_takes_every_event (events : list X11.XEvent)
        (point0 last0 : X11.XPoint) (r : outcome * list X11.XEvent)
        (s' : X11.state) (t : list X11.call_t) :
  X11.main events (X11.init point0 last0) = Some (r, s', t) ->
  r = (Pending, []) /\
  Obs.count Obs.is_next t = List.length events /\
  ~ In X11.XCloseDisplay t /\
  exists t', t = Obs.x11_setup_trace ++ t'.
Proof.
  intros Hm.
  pose proof (x11_main_never_returns _ _ _ _ _ Hm) as [Hr Hc].
  rewrite x11_main_eq in Hm.
  destruct (X11.loop events (X11.init point0 last0))
    as [ [ [ [o rest] s1 ] t1 ] | ] eqn:Hl; [ | discriminate ].
  injection Hm as <- <- <-. injection Hr as -> ->.
  apply x11_loop_waits in Hl.
  split; [ reflexivity | ].
  rewrite app_nil_r in *.
  split; [ exact Hl | ].
  split; [ exact Hc | exists t1; reflexivity ].
Qed.

Lemma x11_main_takes_every_event_witness :
  let events := [X11.MotionNotify 15 12; X11.KeyPress; X11.OtherEvent 12;
                 X11.GenericEvent {| X11.evtype := 1; X11.data := None |}] in
  let s0 := X11.init {| X11.x := 0; X11.y := 0 |} {| X11.x := 10; X11.y := 10 |} in
  let t := Obs.x11_setup_trace ++
           [X11.XNextEvent; X11.printf (Spec.x11_line {| X11.x := -5; X11.y := -2 |});
            X11.XWarpPointer 100 100;
            X11.XNextEvent; X11.XISelectEvents [0]; X11.XUngrabPointer;
            X11.printf Spec.x11_notice;
            X11.XNextEvent;
            X11.XNextEvent; X11.XGetEventData; X11.XFreeEventData] in
  X11.main events s0 =
    Some ((Pending, []), X11.set_point {| X11.x := -5; X11.y := -2 |} s0, t) /\
  ((Pending, []) = (Pending, @nil X11.XEvent) /\
   Obs.count Obs.is_next t = List.length events /\
   ~ In X11.XCloseDisplay t /\
   exists t', t = Obs.x11_setup_trace ++ t').
Proof.
  split.
  - reflexivity.
  - apply (x11_main_takes_every_event
             [X11.MotionNotify 15 12; X11.KeyPress; X11.OtherEvent 12;
              X11.GenericEvent {| X11.evtype := 1; X11.data := None |}]
             {| X11.x := 0; X11.y := 0 |} {| X11.x := 10; X11.y := 10 |}
             (Pending, [])
             (X11.set_point {| X11.x := -5; X11.y := -2 |}
                (X11.init {| X11.x := 0; X11.y := 0 |}
                          {| X11.x := 10; X11.y := 10 |}))).
    reflexivity.
Defined.

(** No event changes [rawInput] or [_lastMousePoint]: at the end of any
    defined run of the X11 program the first is still true and the second
    still holds what it held at the start. *)
Theorem x11_flag_and_last_point_constant (events : list X11.XEvent)
        (point0 last0 : X11.XPoint) (r : outcome * list X11.XEvent)
        (s' : X11.state) (t : list X11.call_t) :
  X11.main events (X11.init point0 last0) = Some (r, s', t) ->
  X11.rawInput s' = true /\ X11._lastMousePoint s' = last0.
Proof.
  rewrite x11_main_eq.
  destruct (X11.loop events (X11.init point0 last0))
    as [ [ [ [o rest] s1 ] t1 ] | ] eqn:Hl; [ | discriminate ].
  intros [= _ <- _].
  apply x11_loop_facts in Hl. destruct Hl as (_ & _ & Hr & Hp & _).
  split; assumption.
Qed.

Lemma x11_flag_and_last_point_constant_witness :
  let events := [X11.KeyPress; X11.MotionNotify 15 12; X11.KeyPress] in
  let s0 := X11.init {| X11.x := 0; X11.y := 0 |} {| X11.x := 10; X11.y := 10 |} in
  let s' := X11.set_point {| X11.x := -5; X11.y := -2 |} s0 in
  let t := Obs.x11_setup_trace ++
           [X11.XNextEvent; X11.XISelectEvents [0]; X11.XUngrabPointer;
            X11.printf Spec.x11_notice;
            X11.XNextEvent; X11.printf (Spec.x11_line {| X11.x := -5; X11.y := -2 |});
            X11.XWarpPointer 100 100;
            X11.XNextEvent; X11.XISelectEvents [0]; X11.XUngrabPointer;
            X11.printf Spec.x11_notice] in
  X11.main events s0 = Some ((Pending, []), s', t) /\
  (X11.rawInput s' = true /\
   X11._lastMousePoint s' = {| X11.x := 10; X11.y := 10 |}).
Proof.
  split.
  - reflexivity.
  - apply (x11_flag_and_last_point_constant
             [X11.KeyPress; X11.MotionNotify 15 12; X11.KeyPress]
             {| X11.x := 0; X11.y := 0 |} {| X11.x := 10; X11.y := 10 |}
             (Pending, [])
             (X11.set_point {| X11.x := -5; X11.y := -2 |}
                (X11.init {| X11.x := 0; X11.y := 0 |}
                          {| X11.x := 10; X11.y := 10 |}))
             (Obs.x11_setup_trace ++
              [X11.XNextEvent; X11.XISelectEvents [0]; X11.XUngrabPointer;
               X11.printf Spec.x11_notice;
               X11.XNextEvent;
               X11.printf (Spec.x11_line {| X11.x := -5; X11.y := -2 |});
               X11.XWarpPointer 100 100;
               X11.XNextEvent; X11.XISelectEvents [0]; X11.XUngrabPointer;
               X11.printf Spec.x11_notice])).
    reflexivity.
Defined.

(** ** x11.c: the cases of the switch *)

(** Every defined pass through the [GenericEvent] case frees the event data
    exactly once, as its last call; the data is fetched before, once, exactly
    when raw input is on. *)
Theorem x11_cookie_freed_once (xcookie : X11.XGenericEventCookie) (s : X11.state) :
  match X11.handle (X11.GenericEvent xcookie) s with
  | Some (_, _, t) =>
      Obs.count Obs.is_free_data t = 1%nat /\
      last t X11.XNextEvent = X11.XFreeEventData /\
      Obs.count Obs.is_get_data t = (if X11.rawInput s then 1 else 0)%nat /\
      (X11.rawInput s = true -> hd X11.XNextEvent t = X11.XGetEventData)
  | None => True
  end.
Proof.
  destruct (X11.rawInput s) eqn:Hr.
  - destruct (X11.handle (X11.GenericEvent xcookie) s)
      as [ [ [ [] s' ] t ] | ] eqn:He; [ | exact I ].
    apply x11_generic_shape in He; [ | assumption ].
    destruct He as [ [_ ->] | (p & _ & ->) ]; repeat split; reflexivity.
  - rewrite x11_generic_off by assumption. repeat split; try reflexivity.
    discriminate.
Qed.

(** A [short] that receives an [int] holds a value in the range of [short],
    and the very value when that is in range. *)
Lemma to_short_in_short (z : Z) : C.in_short (C.to_short z) = true.
Proof.
  unfold C.in_short, C.to_short, C.wrap_signed, C.SHRT_MIN, C.SHRT_MAX.
  change (2 ^ (16 - 1)) with 32768. change (2 ^ 16) with 65536.
  apply andb_true_iff. split; apply Z.leb_le;
    pose proof (Z.mod_pos_bound (z + 32768) 65536 eq_refl); lia.
Qed.

Lemma to_short_exact (z : Z) : C.in_short z = true -> C.to_short z = z.
Proof.
  unfold C.in_short, C.to_short, C.wrap_signed, C.SHRT_MIN, C.SHRT_MAX.
  change (2 ^ (16 - 1)) with 32768. change (2 ^ 16) with 65536.
  intros H. apply andb_true_iff in H. destruct H as [Hl Hu].
  apply Z.leb_le in Hl, Hu.
  rewrite Z.mod_small by lia. lia.
Qed.

(** The delta of a pointer-motion sample always fits a [short]; it is the
    exact difference between [_lastMousePoint] and the position whenever
    that difference fits, and the difference reduced modulo 2^16
    otherwise. *)
Theorem x11_motion_delta_fits_short (s : X11.state) (mx my : Z) :
  X11.rawInput s = true ->
  exists p,
    option_map X11.point (locals (X11.handle (X11.MotionNotify mx my) s)) = Some p /\
    X11.printed (trace (X11.handle (X11.MotionNotify mx my) s)) = [Spec.x11_line p] /\
    C.in_short (X11.x p) = true /\ C.in_short (X11.y p) = true /\
    (X11.x p - (X11.x (X11._lastMousePoint s) - mx)) mod 2 ^ 16 = 0 /\
    (X11.y p - (X11.y (X11._lastMousePoint s) - my)) mod 2 ^ 16 = 0 /\
    (C.in_short (X11.x (X11._lastMousePoint s) - mx) = true ->
     X11.x p = X11.x (X11._lastMousePoint s) - mx) /\
    (C.in_short (X11.y (X11._lastMousePoint s) - my) = true ->
     X11.y p = X11.y (X11._lastMousePoint s) - my).
Proof.
  intros Hr. rewrite x11_motion_on by assumption.
  eexists. split; [ reflexivity | ]. split; [ reflexivity | ]. simpl.
  split; [ apply to_short_in_short | ]. split; [ apply to_short_in_short | ].
  assert (Hmod : forall z, (C.to_short z - z) mod 2 ^ 16 = 0).
  { intros z. unfold C.to_short, C.wrap_signed.
    change (2 ^ (16 - 1)) with 32768. change (2 ^ 16) with 65536.
    Z.div_mod_to_equations. lia. }
  split; [ apply Hmod | ]. split; [ apply Hmod | ].
  split; apply to_short_exact.
Qed.

Lemma x11_motion_delta_fits_short_witness :
  let s := X11.init {| X11.x := 0; X11.y := 0 |} {| X11.x := 100; X11.y := 100 |} in
  X11.rawInput s = true /\
  exists p,
    option_map X11.point (locals (X11.handle (X11.MotionNotify 40000 97) s)) = Some p /\
    X11.printed (trace (X11.handle (X11.MotionNotify 40000 97) s)) = [Spec.x11_line p] /\
    C.in_short (X11.x p) = true /\ C.in_short (X11.y p) = true /\
    (X11.x p - (X11.x (X11._lastMousePoint s) - 40000)) mod 2 ^ 16 = 0 /\
    (X11.y p - (X11.y (X11._lastMousePoint s) - 97)) mod 2 ^ 16 = 0 /\
    (C.in_short (X11.x (X11._lastMousePoint s) - 40000) = true ->
     X11.x p = X11.x (X11._lastMousePoint s) - 40000) /\
    (C.in_short (X11.y (X11._lastMousePoint s) - 97) = true ->
     X11.y p = X11.y (X11._lastMousePoint s) - 97).
Proof.
  split.
  - reflexivity.
  - apply (x11_motion_delta_fits_short
             (X11.init {| X11.x := 0; X11.y := 0 |} {| X11.x := 100; X11.y := 100 |})
             40000 97).
    reflexivity.
Defined.

(** A stream of pointer positions, while raw input is on, is logged in full
    and in order: one line and one warp to the centre per position, each
    delta taken against the same [_lastMousePoint]; the run is always
    defined. *)
Theorem x11_positions_logged_in_order (ms : list (Z * Z)) :
  forall s : X11.state,
    X11.rawInput s = true ->
    exists s' t,
      X11.loop (map Obs.motion_event ms) s = Some ((Pending, []), s', t) /\
      X11.printed t =
        map (fun m => Spec.x11_line (Obs.motion_delta (X11._lastMousePoint s) m)) ms /\
      Obs.count Obs.is_warp t = List.length ms /\
      X11.point s' =
        last (map (Obs.motion_delta (X11._lastMousePoint s)) ms) (X11.point s).
Proof.
  unfold X11.loop.
  induction ms as [ | m ms IH ]; intros s Hr.
  - simpl map. rewrite while_loop_nil. exists s, []. repeat split.
  - simpl map. rewrite while_loop_cons, x11_iteration_eq.
    unfold Obs.motion_event at 1. rewrite x11_motion_on by assumption.
    destruct (IH (X11.set_point (Obs.motion_delta (X11._lastMousePoint s) m) s))
      as (s' & t & Hl & Hp & Hw & Hpt); [ exact Hr | ].
    change (X11._lastMousePoint
              (X11.set_point (Obs.motion_delta (X11._lastMousePoint s) m) s))
      with (X11._lastMousePoint s) in Hp, Hpt.
    unfold Obs.motion_delta at 1 in Hl. rewrite Hl.
    eexists s', _. split; [ reflexivity | ].
    split; [ simpl; rewrite Hp; reflexivity | ].
    split; [ simpl; rewrite Hw; reflexivity | ].
    rewrite Hpt. destruct ms as [ | m0 ms ]; [ reflexivity | ].
    simpl map. rewrite (last_nonempty_default _ _ _ (X11.point s)). reflexivity.
Qed.

Lemma x11_positions_logged_in_order_witness :
  let ms := [(10, 10); (15, 12); (20, 20)] in
  let s := X11.init {| X11.x := 0; X11.y := 0 |} {| X11.x := 100; X11.y := 100 |} in
  X11.rawInput s = true /\
  exists s' t,
    X11.loop (map Obs.motion_event ms) s = Some ((Pending, []), s', t) /\
    X11.printed t =
      map (fun m => Spec.x11_line (Obs.motion_delta (X11._lastMousePoint s) m)) ms /\
    Obs.count Obs.is_warp t = List.length ms /\
    X11.point s' =
      last (map (Obs.motion_delta (X11._lastMousePoint s)) ms) (X11.point s).
Proof.
  split.
  - reflexivity.
  - apply (x11_positions_logged_in_order [(10, 10); (15, 12); (20, 20)]).
    reflexivity.
Defined.



(** The raw path reads [raw_values[1]] whenever bit 1 of the mask is set,
    without regard to how many values the event carries: with fewer than
    two values the read is past the end of the array and the behaviour is
    undefined. *)
Theorem x11_raw_motion_reads_second_slot
        (s : X11.state) (raw : X11.XIRawEvent) (b : Z) (rest : list Z) :
  X11.rawInput s = true ->
  X11.mask raw = b :: rest ->
  Z.testbit b 1 = true ->
  (List.length (X11.raw_values raw) <= 1)%nat ->
  X11.handle (Spec.raw_motion raw) s = None.
Proof.
  intros Hr Hm Hb Hlen.
  assert (H1 : X11.read_delta raw 1 s = None).
  { assert (Hbit : C.XIMaskIsSet (X11.mask raw) 1 =
                   Some (Z.land b (Z.shiftl 1 1)))
      by (rewrite Hm; reflexivity).
    assert (Hn : nth_error (X11.raw_values raw) (Z.to_nat 1) = None)
      by (apply nth_error_None; exact Hlen).
    unfold X11.read_delta. run. rewrite Hbit.
    rewrite land_shiftl_testbit by lia. rewrite Hb. simpl negb. cbv iota.
    rewrite Hn. reflexivity. }
  assert (Hlen0 : (X11.mask_len raw =? 0) = false)
    by (unfold X11.mask_len; rewrite Hm; reflexivity).
  unfold Spec.raw_motion, X11.handle, X11.on_generic.
  cbv [bind get call defined ret modify]. rewrite Hr. simpl.
  rewrite Hlen0.
  destruct (X11.read_delta raw 0 s) as [ [ [dx s1] t1 ] | ] eqn:E0;
    [ | reflexivity ].
  apply read_delta_pure in E0. destruct E0 as [-> ->].
  rewrite H1. reflexivity.
Qed.

Lemma x11_raw_motion_reads_second_slot_witness :
  let s := X11.init {| X11.x := 0; X11.y := 0 |} {| X11.x := 0; X11.y := 0 |} in
  (* only valuator 1 moved: one value, -20.0, at index 0 *)
  let raw := {| X11.mask := [2]; X11.raw_values := [S754_finite true 5 2] |} in
  (X11.rawInput s = true /\ X11.mask raw = [2] /\ Z.testbit 2 1 = true /\
   (List.length (X11.raw_values raw) <= 1)%nat) /\
  X11.handle (Spec.raw_motion raw) s = None.
Proof.
  split.
  - repeat split; reflexivity.
  - apply (x11_raw_motion_reads_second_slot
             (X11.init {| X11.x := 0; X11.y := 0 |} {| X11.x := 0; X11.y := 0 |})
             {| X11.mask := [2]; X11.raw_values := [S754_finite true 5 2] |}
             2 []);
      reflexivity.
Defined.

(** ** x11.c: the event masks *)

Lemma set_byte_nth (bit : Z) (mask : list Z) :
  forall (n : nat) (mask' : list Z),
    Obs.set_byte mask n bit = Some mask' ->
    forall m : nat,
      nth_error mask' m =
        if Nat.eqb m n then option_map (fun b => Z.lor b bit) (nth_error mask m)
        else nth_error mask m.
Proof.
  induction mask as [ | b mask IH ]; intros n mask' H m; [ destruct n; discriminate | ].
  destruct n as [ | n ]; simpl in H.
  - injection H as <-. destruct m; reflexivity.
  - destruct (Obs.set_byte mask n bit) as [ rest' | ] eqn:E; [ | discriminate ].
    injection H as <-. destruct m as [ | m ]; [ reflexivity | ].
    simpl. apply (IH n rest' E m).
Qed.

Lemma set_byte_in_range (bit : Z) (mask : list Z) :
  forall (n : nat) (mask' : list Z),
    Obs.set_byte mask n bit = Some mask' ->
    exists b, nth_error mask n = Some b.
Proof.
  induction mask as [ | b mask IH ]; intros n mask' H; [ destruct n; discriminate | ].
  destruct n as [ | n ]; simpl in *; [ eauto | ].
  destruct (Obs.set_byte mask n bit) as [ rest' | ] eqn:E; [ | discriminate ].
  exact (IH n rest' E).
Qed.

(** [XIMaskIsSet] reads one bit of one byte. *)
Lemma selects_testbit (mask : list Z) (event : Z) :
  0 <= event ->
  Obs.selects mask event =
    match nth_error mask (Z.to_nat (Z.shiftr event 3)) with
    | Some b => Z.testbit b (Z.land event 7)
    | None => false
    end.
Proof.
  intros He. unfold Obs.selects, C.XIMaskIsSet.
  destruct (nth_error mask (Z.to_nat (Z.shiftr event 3))) as [ b | ];
    [ | reflexivity ].
  rewrite land_shiftl_testbit; [ apply negb_involutive | ].
  apply Z.land_nonneg. right. lia.
Qed.

(** An event number is its byte index and its bit index. *)
Lemma event_byte_bit (e e' : Z) :
  0 <= e -> 0 <= e' ->
  (e' =? e) =
    Nat.eqb (Z.to_nat (Z.shiftr e' 3)) (Z.to_nat (Z.shiftr e 3))
    && (Z.land e 7 =? Z.land e' 7).
Proof.
  intros He He'.
  rewrite !Z.shiftr_div_pow2 by lia.
  change 7 with (Z.ones 3). rewrite !Z.land_ones by lia.
  change (2 ^ 3) with 8.
  pose proof (Z.div_pos e 8 He eq_refl) as Hd.
  pose proof (Z.div_pos e' 8 He' eq_refl) as Hd'.
  destruct (Z.eqb_spec e' e) as [-> | Hne].
  - rewrite Nat.eqb_refl, Z.eqb_refl. reflexivity.
  - symmetry. apply andb_false_iff.
    destruct (Nat.eqb_spec (Z.to_nat (e' / 8)) (Z.to_nat (e / 8))) as [Hq | Hq];
      [ right | now left ].
    apply Z.eqb_neq. intros Hm. apply Hne.
    apply Z2Nat.inj in Hq; [ | lia | lia ].
    rewrite (Z.div_mod e 8), (Z.div_mod e' 8) by lia. congruence.
Qed.

(** Setting an event in a mask and testing for an event: the test answers
    yes for the event set and for the events the mask had, and for no
    other. *)
Lemma XISetMask_XIMaskIsSet (mask mask' : list Z) (e e' : Z) :
  0 <= e -> 0 <= e' ->
  Obs.XISetMask mask e = Some mask' ->
  Obs.selects mask' e' = Obs.selects mask e' || (e' =? e).
Proof.
  intros He He' Hset. unfold Obs.XISetMask in Hset.
  rewrite !selects_testbit by assumption.
  rewrite (set_byte_nth _ _ _ _ Hset), (event_byte_bit e e') by assumption.
  assert (He7 : 0 <= Z.land e 7) by (apply Z.land_nonneg; right; lia).
  assert (He7' : 0 <= Z.land e' 7) by (apply Z.land_nonneg; right; lia).
  destruct (Nat.eqb_spec (Z.to_nat (Z.shiftr e' 3)) (Z.to_nat (Z.shiftr e 3)))
    as [Hq | Hq].
  - destruct (nth_error mask (Z.to_nat (Z.shiftr e' 3))) as [ b | ] eqn:Hb.
    + simpl. rewrite Z.lor_spec, Z.shiftl_1_l, Z.pow2_bits_eqb by assumption.
      reflexivity.
    + exfalso. rewrite Hq in Hb.
      destruct (set_byte_in_range _ _ _ _ Hset) as [b Hb']. congruence.
  - simpl. rewrite orb_false_r. reflexivity.
Qed.

(** A zeroed mask selects nothing. *)
Lemma zero_mask_selects_nothing (n : nat) (event : Z) :
  0 <= event -> Obs.selects (repeat 0 n) event = false.
Proof.
  intros He. rewrite selects_testbit by assumption.
  destruct (nth_error (repeat 0 n) (Z.to_nat (Z.shiftr event 3))) as [ b | ] eqn:Hb;
    [ | reflexivity ].
  apply nth_error_In, repeat_spec in Hb. subst b. apply Z.bits_0.
Qed.

(** The event masks the X11 program hands to [XISelectEvents].  The one of
    the set-up is the zeroed array of [XIMaskLen(XI_RawMotion)] bytes with
    [XI_RawMotion] set: it selects raw motion and no other event.  The one
    of the [KeyPress] case selects no event at all. *)
Theorem x11_selection_masks (s : X11.state) (event : Z) :
  0 <= event ->
  (exists m,
      Obs.raw_motion_mask = Some m /\
      In (X11.XISelectEvents m) (trace (X11.setup s)) /\
      Z.of_nat (List.length m) = Obs.XIMaskLen X11.XI_RawMotion /\
      Obs.selects m event = (event =? X11.XI_RawMotion)) /\
  (forall m,
      In (X11.XISelectEvents m) (trace (X11.handle X11.KeyPress s)) ->
      Obs.selects m event = false).
Proof.
  intros He. split.
  - exists [0; 0; 2]. split; [ reflexivity | ].
    split; [ simpl; tauto | ]. split; [ reflexivity | ].
    rewrite (XISetMask_XIMaskIsSet (repeat 0 3) [0; 0; 2] X11.XI_RawMotion event);
      [ | discriminate | assumption | reflexivity ].
    rewrite zero_mask_selects_nothing by assumption. reflexivity.
  - intros m Hin.
    destruct (X11.rawInput s) eqn:Hr.
    + rewrite x11_keypress_on in Hin by assumption. simpl in Hin.
      destruct Hin as [ [= <-] | [ [=] | [ [=] | [] ] ] ].
      apply (zero_mask_selects_nothing 1 event He).
    + rewrite x11_keypress_off in Hin by assumption. destruct Hin.
Qed.

Lemma x11_selection_masks_witness :
  let s := X11.init {| X11.x := 0; X11.y := 0 |} {| X11.x := 0; X11.y := 0 |} in
  0 <= X11.XI_RawMotion /\
  ((exists m,
       Obs.raw_motion_mask = Some m /\
       In (X11.XISelectEvents m) (trace (X11.setup s)) /\
       Z.of_nat (List.length m) = Obs.XIMaskLen X11.XI_RawMotion /\
       Obs.selects m X11.XI_RawMotion = (X11.XI_RawMotion =? X11.XI_RawMotion)) /\
   (forall m,
       In (X11.XISelectEvents m) (trace (X11.handle X11.KeyPress s)) ->
       Obs.selects m X11.XI_RawMotion = false)).
Proof.
  split.
  - discriminate.
  - apply (x11_selection_masks
             (X11.init {| X11.x := 0; X11.y := 0 |} {| X11.x := 0; X11.y := 0 |})
             X11.XI_RawMotion).
    discriminate.
Defined.

(** ** The lines written *)

(** The digits and the sign of [%i] are neither blanks nor line ends. *)
Lemma uint_lacks (c : ascii) (d : Decimal.uint) :
  (nat_of_ascii c < 45)%nat ->
  Obs.lacks c (NilEmpty.string_of_uint d) = true.
Proof.
  intros Hc.
  assert (Hne : forall a : ascii, (45 <= nat_of_ascii a)%nat -> Ascii.eqb a c = false).
  { intros a Ha. destruct (Ascii.eqb_spec a c) as [-> | ]; [ lia | reflexivity ]. }
  induction d as [ | d IH | d IH | d IH | d IH | d IH | d IH | d IH | d IH | d IH | d IH ];
    [ reflexivity | .. ];
    cbn [Obs.lacks NilEmpty.string_of_uint];
    (rewrite IH, Hne; [ reflexivity | apply Nat.leb_le; reflexivity ]).
Qed.

Lemma fmt_i_lacks (c : ascii) (z : Z) :
  (nat_of_ascii c < 45)%nat -> Obs.lacks c (C.fmt_i z) = true.
Proof.
  intros Hc. unfold C.fmt_i, NilZero.string_of_int, NilZero.string_of_uint.
  assert (Hm : Ascii.eqb "-" c = false).
  { destruct (Ascii.eqb_spec "-"%char c) as [<- | ]; [ apply Nat.ltb_lt in Hc; vm_compute in Hc; discriminate | reflexivity ]. }
  assert (H0 : Obs.lacks c "0" = true).
  { cbn [Obs.lacks]. destruct (Ascii.eqb_spec "0"%char c) as [<- | ]; [ apply Nat.ltb_lt in Hc; vm_compute in Hc; discriminate | reflexivity ]. }
  destruct (Z.to_int z) as [ d | d ];
    [ | cbn [Obs.lacks]; rewrite Hm; cbn [negb andb] ];
    (destruct d; [ exact H0 | apply (uint_lacks c _ Hc) .. ]).
Qed.

(** [%i] writes different numbers differently. *)
Lemma fmt_i_inj (a b : Z) : C.fmt_i a = C.fmt_i b -> a = b.
Proof.
  unfold C.fmt_i. intros H.
  assert (Hparse : forall z, NilZero.int_of_string
                               (NilZero.string_of_int (Z.to_int z)) =
                             Some (Z.to_int z)).
  { intros z. apply NilZero.isi; destruct z; simpl; try discriminate;
      intros [= Hp]; exact (DecimalPos.Unsigned.to_uint_nonnil _ Hp). }
  pose proof (Hparse a) as Ha. rewrite H, Hparse in Ha.
  injection Ha as Ha.
  rewrite <- (DecimalZ.of_to a), <- (DecimalZ.of_to b). now rewrite Ha.
Qed.

(** Two texts that lack a separator and are followed by it split the same
    way. *)
Lemma split_at_separator (c : ascii) (a : string) :
  forall (a' r r' : string),
    Obs.lacks c a = true -> Obs.lacks c a' = true ->
    (a ++ String c r)%string = (a' ++ String c r')%string ->
    a = a' /\ r = r'.
Proof.
  induction a as [ | x a IH ]; intros a' r r' Ha Ha' H.
  - destruct a' as [ | x' a' ]; simpl in H.
    + injection H as ->. now split.
    + injection H as <- _. simpl in Ha'. rewrite Ascii.eqb_refl in Ha'. discriminate.
  - destruct a' as [ | x' a' ]; simpl in H.
    + injection H as -> _. simpl in Ha. rewrite Ascii.eqb_refl in Ha. discriminate.
    + injection H as -> H. simpl in Ha, Ha'.
      apply andb_true_iff in Ha, Ha'.
      destruct (IH a' r r') as [-> ->]; [ apply Ha | apply Ha' | exact H | ].
      now split.
Qed.

(** A line is read back in one way only: the two numbers of a sample line
    are what was printed. *)
Lemma sample_fields_inj (a b a' b' : Z) :
  (C.fmt_i a ++ " " ++ C.fmt_i b ++ C.nl)%string =
  (C.fmt_i a' ++ " " ++ C.fmt_i b' ++ C.nl)%string ->
  a = a' /\ b = b'.
Proof.
  intros H.
  apply split_at_separator in H;
    [ | apply fmt_i_lacks, Nat.ltb_lt; reflexivity
      | apply fmt_i_lacks, Nat.ltb_lt; reflexivity ].
  destruct H as [Ha Hb].
  apply split_at_separator in Hb;
    [ | apply fmt_i_lacks, Nat.ltb_lt; reflexivity
      | apply fmt_i_lacks, Nat.ltb_lt; reflexivity ].
  destruct Hb as [Hb _].
  split; apply fmt_i_inj; assumption.
Qed.

(** Different samples are written as different lines, on both programs: the
    output determines the deltas. *)
Theorem lines_tell_samples_apart (p q : Win.POINT) (p' q' : X11.XPoint) :
  p <> q ->
  p' <> q' ->
  Spec.win_line p <> Spec.win_line q /\
  Spec.x11_line p' <> Spec.x11_line q'.
Proof.
  intros Hp Hp'. split; intros H.
  - apply Hp. unfold Spec.win_line in H. simpl in H.
    injection H as H. apply sample_fields_inj in H.
    destruct p, q. simpl in H. destruct H as [-> ->]. reflexivity.
  - apply Hp'. unfold Spec.x11_line in H. simpl in H.
    injection H as H. apply sample_fields_inj in H.
    destruct p', q'. simpl in H. destruct H as [-> ->]. reflexivity.
Qed.

Lemma lines_tell_samples_apart_witness :
  let p := {| Win.x := 7; Win.y := -3 |} in
  let q := {| Win.x := 7; Win.y := 3 |} in
  let p' := {| X11.x := -1; X11.y := 20 |} in
  let q' := {| X11.x := -12; X11.y := 0 |} in
  (p <> q /\ p' <> q') /\
  (Spec.win_line p <> Spec.win_line q /\
   Spec.x11_line p' <> Spec.x11_line q').
Proof.
  assert (Hp : {| Win.x := 7; Win.y := -3 |} <> {| Win.x := 7; Win.y := 3 |})
    by discriminate.
  assert (Hp' : {| X11.x := -1; X11.y := 20 |} <> {| X11.x := -12; X11.y := 0 |})
    by discriminate.
  split.
  - split; [ exact Hp | exact Hp' ].
  - apply (lines_tell_samples_apart _ _ _ _ Hp Hp').
Defined.
